(** * django_statsd: per-request counters and timers flushed to statsd

    A shallow embedding of [django_statsd/middleware.py] and
    [django_statsd/celery.py].

    - Python [int] counters are [Z]; [time.time()] readings and the
      accumulated durations are binary64 floats ([PrimFloat.float]), added
      and subtracted with the float operations, never reassociated.
    - The [defaultdict]s of [Counter] and [Timer] are [gmap string _]; a
      lookup [d[key]] that creates the default entry is written out where it
      changes the dictionary.  Iteration follows [map_to_list]: the module
      never relies on dictionary order.
    - A [deque] of start times is a [list float], oldest first, so that
      [append] adds at the end and [pop] removes the last element.
    - Exceptions are values of [PyExc]; a call returns [Ret v] or [Raise e]
      together with the state it leaves behind.
    - [statsd.increment] and [statsd.timing] are recorded, in call order, as
      the [Emission]s received by the sink.
    - [assert] statements are executed (the interpreter runs without [-O]). *)

From Stdlib Require Import ZArith Floats.
From stdpp Require Import base option list gmap strings fin_maps.

Open Scope Z_scope.

(** ** Exceptions and results *)

(** The exceptions the module can raise, and [Exception] for what
    instrumented code raises inside a [with] block.  [AttributeError obj
    attr] is "[obj] object has no attribute [attr]".  [DanglingReference]
    is not a Python exception: it marks a call through an address that the
    Timer store does not hold, which no world built by the entry points
    contains. *)
Inductive PyExc : Type :=
| AssertionError (msg : string)
| NameError (name : string)
| AttributeError (obj attr : string)
| KeyError (key : string)
| DanglingReference (addr : nat)
| Exception (msg : string).

Inductive Res (A : Type) : Type :=
| Ret (a : A)
| Raise (e : PyExc).
Arguments Ret {A} a.
Arguments Raise {A} e.

Definition is_raise {A} (r : Res A) : bool :=
  match r with Ret _ => false | Raise _ => true end.

(** ** Settings and module globals *)

(** The attributes of [django.conf.settings] the module reads.  [None] is an
    attribute that is not set, so that [getattr(settings, name, default)]
    yields the default. *)
Record Settings : Type := {
  STATSD_TRACK_MIDDLEWARE : option bool;
  STATSD_SAMPLE_RATE : option float;
  STATSD_PREFIX : option string;
  DEBUG : bool
}.

(** [TRACK_MIDDLEWARE = getattr(settings, 'STATSD_TRACK_MIDDLEWARE', False)] *)
Definition TRACK_MIDDLEWARE (cfg : Settings) : bool :=
  default false (STATSD_TRACK_MIDDLEWARE cfg).

(** The module global [sample_rate] is assigned inside
    [if TRACK_MIDDLEWARE:] only; [None] is the unbound name. *)
Definition sample_rate (cfg : Settings) : option float :=
  if TRACK_MIDDLEWARE cfg
  then Some (default 1%float (STATSD_SAMPLE_RATE cfg))
  else None.

(** ** The sink *)

Inductive Emission : Type :=
| StatsdIncrement (metric : string) (value : Z) (tags : list string) (rate : float)
| StatsdTiming (metric : string) (value : float) (tags : list string) (rate : float).

Definition metric_of (e : Emission) : string :=
  match e with
  | StatsdIncrement m _ _ _ => m
  | StatsdTiming m _ _ _ => m
  end.

(** The events of [out] sent under the metric name [name]. *)
Definition emitted_as (name : string) (out : list Emission) : list Emission :=
  filter (λ e, metric_of e = name) out.

(** ** Tags *)

(** What callers pass as [tags]: the middleware passes a [dict] (its items
    in iteration order), the celery handler passes the task name, a [str]. *)
Inductive PyTags : Type :=
| TagsDict (items : list (string * string))
| TagsStr (s : string).

Definition tag_strings (items : list (string * string)) : list string :=
  map (λ kv, kv.1 +:+ ":" +:+ kv.2) items.

(** [[k + ":" + v for k, v in tags.items()]]; a [str] has no [items]. *)
Definition format_tags (tags : PyTags) : Res (list string) :=
  match tags with
  | TagsDict items => Ret (tag_strings items)
  | TagsStr _ => Raise (AttributeError "str" "items")
  end.

(** ** Client *)

Module Client.

(** [Client.__init__]: the metric prefix, after the optional global prefix.
    [if global_prefix:] is false for [None] and for the empty string. *)
Definition init_prefix (cfg : Settings) (prefix : string) : string :=
  match STATSD_PREFIX cfg with
  | Some global_prefix =>
      if decide (global_prefix = "") then prefix
      else global_prefix +:+ "." +:+ prefix
  | None => prefix
  end.

End Client.

(** ** Counter *)

Module Counter.

Record t : Type := mk {
  prefix : string;
  data : gmap string Z
}.

Definition new (cfg : Settings) (prefix : string) : t :=
  {| prefix := Client.init_prefix cfg prefix; data := ∅ |}.

(** [self.data[key] += delta] on a [defaultdict(int)] *)
Definition increment (key : string) (delta : Z) (c : t) : t :=
  {| prefix := prefix c;
     data := <[key := default 0 (data c !! key) + delta]> (data c) |}.

(** [self.data[key] -= delta] *)
Definition decrement (key : string) (delta : Z) (c : t) : t :=
  {| prefix := prefix c;
     data := <[key := default 0 (data c !! key) - delta]> (data c) |}.

(** The loop of [submit] over [self.data.items()].  The keyword argument
    [sample_rate=sample_rate] is evaluated for every non-zero entry, and
    raises [NameError] before the call when the global is unbound. *)
Fixpoint submit_loop (prefix : string) (tags : list string)
    (rate : option float) (items : list (string * Z))
    : Res unit * list Emission :=
  match items with
  | [] => (Ret tt, [])
  | (k, v) :: rest =>
      if decide (v = 0) then submit_loop prefix tags rate rest
      else match rate with
           | None => (Raise (NameError "sample_rate"), [])
           | Some r =>
               let '(res, out) := submit_loop prefix tags rate rest in
               (res, StatsdIncrement (prefix +:+ "." +:+ k) v tags r :: out)
           end
  end.

(** [Counter.submit]: the result and the calls made on the sink.  The
    counter itself is not assigned to. *)
Definition submit (rate : option float) (tags : PyTags) (c : t)
    : Res unit * list Emission :=
  match format_tags tags with
  | Raise e => (Raise e, [])
  | Ret tl => submit_loop (prefix c) tl rate (map_to_list (data c))
  end.

End Counter.

(** A call on a [Counter] made by instrumented code. *)
Inductive CounterOp : Type :=
| Incr (key : string) (delta : Z)
| Decr (key : string) (delta : Z).

Definition counter_step (c : Counter.t) (op : CounterOp) : Counter.t :=
  match op with
  | Incr k d => Counter.increment k d c
  | Decr k d => Counter.decrement k d c
  end.

Definition counter_run (ops : list CounterOp) (c : Counter.t) : Counter.t :=
  fold_left counter_step ops c.

(** The signed delta an operation contributes to [key]. *)
Definition signed_delta (key : string) (op : CounterOp) : Z :=
  match op with
  | Incr k d => if decide (k = key) then d else 0
  | Decr k d => if decide (k = key) then - d else 0
  end.

Definition delta_sum (key : string) (ops : list CounterOp) : Z :=
  foldr (λ op acc, signed_delta key op + acc) 0 ops.


(** ** Timer *)

Module Timer.

Record t : Type := mk {
  prefix : string;
  starts : gmap string (list float);
  data : gmap string float
}.

Definition new (cfg : Settings) (prefix : string) : t :=
  {| prefix := Client.init_prefix cfg prefix; starts := ∅; data := ∅ |}.

(** [deque.pop()]: the last element and the remaining deque; [None] on an
    empty deque. *)
Fixpoint deque_pop (q : list float) : option (float * list float) :=
  match q with
  | [] => None
  | x :: q' =>
      match deque_pop q' with
      | None => Some (x, [])
      | Some (y, rest) => Some (y, x :: rest)
      end
  end.

(** [self.starts[key].append(time.time())]; [now] is the clock reading. *)
Definition start (now : float) (key : string) (tm : t) : t :=
  {| prefix := prefix tm;
     starts := <[key := default [] (starts tm !! key) ++ [now]]> (starts tm);
     data := data tm |}.

Definition stop_message (key : string) : string :=
  "Unable to stop tracking " +:+ key +:+ ", never started tracking it".

(** [Timer.stop].  The [assert] reads [self.starts[key]], which on a
    [defaultdict] stores an empty deque under a missing key before the
    assertion is evaluated.  The clock is read only after the assertion. *)
Definition stop (now : float) (key : string) (tm : t) : Res float * t :=
  match deque_pop (default [] (starts tm !! key)) with
  | None =>
      (Raise (AssertionError (stop_message key)),
       {| prefix := prefix tm;
          starts := <[key := []]> (starts tm);
          data := data tm |})
  | Some (started, rest) =>
      let delta := (now - started)%float in
      (Ret delta,
       {| prefix := prefix tm;
          starts := match rest with
                    | [] => delete key (starts tm)
                    | _ :: _ => <[key := rest]> (starts tm)
                    end;
          data := <[key := (default 0 (data tm !! key) + delta)%float]> (data tm) |})
  end.

(** The loop of [submit] over the snapshot [list(self.data.keys())].  The
    positional argument [self.data.pop(k)] is evaluated before the keyword
    argument [sample_rate=sample_rate]: with the global unbound the entry is
    removed and then [NameError] is raised. *)
Fixpoint submit_loop (prefix : string) (tags : list string)
    (rate : option float) (keys : list string) (data : gmap string float)
    : Res unit * gmap string float * list Emission :=
  match keys with
  | [] => (Ret tt, data, [])
  | k :: rest =>
      match data !! k with
      | None => (Raise (KeyError k), data, [])
      | Some v =>
          match rate with
          | None => (Raise (NameError "sample_rate"), delete k data, [])
          | Some r =>
              let '(res, data', out) :=
                submit_loop prefix tags rate rest (delete k data) in
              (res, data', StatsdTiming (prefix +:+ "." +:+ k) v tags r :: out)
          end
      end
  end.

Definition submit_message : string :=
  "Timer(s) were started but never stopped".

(** [Timer.submit]: result, timer afterwards, calls made on the sink.
    [debug] is [settings.DEBUG]; [assert not self.starts] fails when the
    dictionary of start deques has any key. *)
Definition submit (rate : option float) (debug : bool) (tags : PyTags) (tm : t)
    : Res unit * t * list Emission :=
  match format_tags tags with
  | Raise e => (Raise e, tm, [])
  | Ret tl =>
      let '(res, data', out) :=
        submit_loop (prefix tm) tl rate (map_to_list (data tm)).*1 (data tm) in
      let tm' := {| prefix := prefix tm; starts := starts tm; data := data' |} in
      match res with
      | Raise e => (Raise e, tm', out)
      | Ret _ =>
          if debug && negb (bool_decide (starts tm = ∅))
          then (Raise (AssertionError submit_message), tm', out)
          else (Ret tt, tm', out)
      end
  end.

End Timer.

(** A call on a [Timer] made by instrumented code, with its clock reading. *)
Inductive TimerOp : Type :=
| TStart (now : float) (key : string)
| TStop (now : float) (key : string).

(** Runs the calls in order, stopping at the first exception; returns the
    values of the [stop] calls, in call order. *)
Fixpoint timer_run (ops : list TimerOp) (tm : Timer.t)
    : Res (list float) * Timer.t :=
  match ops with
  | [] => (Ret [], tm)
  | TStart now k :: rest => timer_run rest (Timer.start now k tm)
  | TStop now k :: rest =>
      match Timer.stop now k tm with
      | (Raise e, tm') => (Raise e, tm')
      | (Ret d, tm') =>
          match timer_run rest tm' with
          | (Ret ds, tm'') => (Ret (d :: ds), tm'')
          | (Raise e, tm'') => (Raise e, tm'')
          end
      end
  end.

(** ** The thread-local scope, the Timer store and the sink *)

(** A [Timer] can be captured by a [WithTimer] context manager and outlive
    its binding in the scope, so Timers live in a store and are referred to
    by address (allocation order).  A [Counter] is reachable through its
    scope attribute only and is held in place.  An attribute of the
    [threading.local] that is [None] or was never assigned is [None] here:
    every read of [timings] and [counter] guarded by the module goes through
    [getattr(..., None)], which does not tell the two apart.  [view_name]
    is the attribute of the middleware instance, and [request_statsd] tells
    whether [request.statsd] of the request in progress refers to the
    scope; [cleanup] resets both. *)
Record World : Type := mkWorld {
  timers : list Timer.t;
  scope_timings : option nat;
  scope_counter : option Counter.t;
  scope_counter_site : option Counter.t;
  sink : list Emission;
  view_name : option string;
  request_statsd : bool
}.

Definition set_timers (ts : list Timer.t) (w : World) : World :=
  mkWorld ts (scope_timings w) (scope_counter w) (scope_counter_site w)
          (sink w) (view_name w) (request_statsd w).
Definition set_timings (a : option nat) (w : World) : World :=
  mkWorld (timers w) a (scope_counter w) (scope_counter_site w)
          (sink w) (view_name w) (request_statsd w).
Definition set_counter (c : option Counter.t) (w : World) : World :=
  mkWorld (timers w) (scope_timings w) c (scope_counter_site w)
          (sink w) (view_name w) (request_statsd w).
Definition set_counter_site (c : option Counter.t) (w : World) : World :=
  mkWorld (timers w) (scope_timings w) (scope_counter w) c
          (sink w) (view_name w) (request_statsd w).
Definition set_sink (s : list Emission) (w : World) : World :=
  mkWorld (timers w) (scope_timings w) (scope_counter w) (scope_counter_site w)
          s (view_name w) (request_statsd w).
Definition set_view_name (v : option string) (w : World) : World :=
  mkWorld (timers w) (scope_timings w) (scope_counter w) (scope_counter_site w)
          (sink w) v (request_statsd w).
Definition set_request_statsd (b : bool) (w : World) : World :=
  mkWorld (timers w) (scope_timings w) (scope_counter w) (scope_counter_site w)
          (sink w) (view_name w) b.

(** A thread that has run nothing yet. *)
Definition empty_world : World := mkWorld [] None None None [] None false.

(** Computations over the world that may raise; the world reached at the
    point of the exception is kept. *)
Definition M (A : Type) : Type := World → Res A * World.

#[global] Instance M_ret : MRet M := λ A a w, (Ret a, w).
#[global] Instance M_bind : MBind M := λ A B f m w,
  match m w with
  | (Ret a, w') => f a w'
  | (Raise e, w') => (Raise e, w')
  end.

Definition raise {A} (e : PyExc) : M A := λ w, (Raise e, w).
Definition gets {A} (f : World → A) : M A := λ w, (Ret (f w), w).
Definition modify (f : World → World) : M unit := λ w, (Ret tt, f w).

(** [Timer(prefix)]: a new object in the store. *)
Definition alloc_timer (tm : Timer.t) : M nat := λ w,
  (Ret (length (timers w)), set_timers (timers w ++ [tm]) w).

(** A method call on the Timer at address [a]: the object is updated in
    place and the events it sends reach the sink. *)
Definition on_timer {A} (a : nat)
    (method : Timer.t → Res A * Timer.t * list Emission) : M A := λ w,
  match timers w !! a with
  | None => (Raise (DanglingReference a), w)
  | Some tm =>
      let '(res, tm', out) := method tm in
      (res, set_sink (sink w ++ out) (set_timers (<[a := tm']> (timers w)) w))
  end.

Definition timer_start (a : nat) (now : float) (key : string) : M unit :=
  on_timer a (λ tm, (Ret tt, Timer.start now key tm, [])).
Definition timer_stop (a : nat) (now : float) (key : string) : M float :=
  on_timer a (λ tm, let '(res, tm') := Timer.stop now key tm in (res, tm', [])).
Definition timer_submit (cfg : Settings) (a : nat) (tags : PyTags) : M unit :=
  on_timer a (Timer.submit (sample_rate cfg) (DEBUG cfg) tags).

(** [cls.scope.<attr>.submit(tags)] for a Counter attribute. *)
Definition counter_submit (cfg : Settings) (attr : World → option Counter.t)
    (tags : PyTags) : M unit := λ w,
  match attr w with
  | None => (Raise (AttributeError "NoneType" "submit"), w)
  | Some c =>
      let '(res, out) := Counter.submit (sample_rate cfg) tags c in
      (res, set_sink (sink w ++ out) w)
  end.

(** [cls.scope.<attr>.increment(...)] or [.decrement(...)]: the Counter
    bound to the attribute is updated in place. *)
Definition counter_update (attr : World → option Counter.t)
    (set : option Counter.t → World → World) (name : string)
    (method : Counter.t → Counter.t) : M unit := λ w,
  match attr w with
  | None => (Raise (AttributeError "NoneType" name), w)
  | Some c => (Ret tt, set (Some (method c)) w)
  end.

(** [StatsdMiddleware.scope.timings.<name>(...)], read without a guard:
    on an attribute that is [None] the call raises [AttributeError]. *)
Definition scope_timings_method {A} (name : string) (method : nat → M A)
    : M A :=
  t ← gets scope_timings;
  match t with
  | Some a => method a
  | None => raise (AttributeError "NoneType" name)
  end.

(** ** Requests and views *)

(** What the hooks read of a request: [request.method] and the answer of
    [request.is_ajax()]. *)
Record Request : Type := {
  method : string;
  is_ajax : bool
}.

(** What [process_view] reads of a view: [__module__], [__name__] when the
    view has one (a function), and the name of its class (every object has
    a [__class__]). *)
Record ViewFunc : Type := {
  view_module : string;
  view_func_name : option string;
  view_class_name : string
}.

(** [str.lower] is the interpreter's: the hooks and [wrapper] take it as
    the parameter [lower].  [lower_ascii] is what it does on ASCII text
    (HTTP methods, Python 2 identifiers): the letters A to Z become a to z,
    every other character is kept. *)
Definition ascii_lower (c : Ascii.ascii) : Ascii.ascii :=
  let n := Ascii.nat_of_ascii c in
  if ((65 <=? n) && (n <=? 90))%nat then Ascii.ascii_of_nat (n + 32) else c.

Fixpoint lower_ascii (s : string) : string :=
  match s with
  | EmptyString => EmptyString
  | String c s' => String (ascii_lower c) (lower_ascii s')
  end.

(** ** StatsdMiddleware *)

Module StatsdMiddleware.

(** [__init__] *)
Definition init : M unit :=
  modify (set_timings None);;
  modify (set_counter None).

(** [start(cls, prefix='view')]; [now] is the reading taken by
    [timings.start('total')]. *)
Definition start (cfg : Settings) (now : float) (prefix : string) : M unit :=
  a ← alloc_timer (Timer.new cfg prefix);
  modify (set_timings (Some a));;
  timer_start a now "total";;
  modify (set_counter (Some (Counter.new cfg prefix)));;
  counter_update scope_counter set_counter "increment"
    (Counter.increment "hit" 1);;
  modify (set_counter_site (Some (Counter.new cfg prefix)));;
  counter_update scope_counter_site set_counter_site "increment"
    (Counter.increment "hit" 1).

(** [stop(cls, tags)]; [now] is the reading taken by
    [timings.stop('total')]. *)
Definition stop (cfg : Settings) (now : float) (tags : PyTags) : M unit :=
  t ← gets scope_timings;
  match t with
  | Some a =>
      timer_stop a now "total";;
      timer_submit cfg a tags;;
      counter_submit cfg scope_counter tags;;
      counter_submit cfg scope_counter_site (TagsDict [("type", "site")])
  | None => mret tt
  end.

(** [cleanup(self, request)] *)
Definition cleanup : M unit :=
  modify (set_timings None);;
  modify (set_counter None);;
  modify (set_view_name None);;
  modify (set_request_statsd false).

(** [process_request(self, request)]; [now] is the reading of
    [start()], [now_track] the one of [timings.start('process_request')]. *)
Definition process_request (cfg : Settings) (now now_track : float) : M unit :=
  start cfg now "view";;
  modify (set_request_statsd true);;
  (if TRACK_MIDDLEWARE cfg
   then scope_timings_method "start" (λ a, timer_start a now_track "process_request")
   else mret tt);;
  modify (set_view_name None).

(** [process_view(self, request, view_func, view_args, view_kwargs)] *)
Definition process_view (cfg : Settings) (now : float) (view_func : ViewFunc)
    : M unit :=
  (if TRACK_MIDDLEWARE cfg
   then scope_timings_method "start" (λ a, timer_start a now "process_view")
   else mret tt);;
  modify (set_view_name
            (Some (view_module view_func +:+ "." +:+
                   match view_func_name view_func with
                   | Some name => name
                   | None => view_class_name view_func
                   end))).

(** The tags [process_response] passes to [stop]. *)
Definition response_tags (lower : string → string) (request : Request)
    (view : string) : PyTags :=
  TagsDict [("method",
             if is_ajax request then lower (method request) +:+ "_ajax"
             else lower (method request));
            ("view_name", view);
            ("type", "view")].

(** [process_response(self, request, response)]; [now_track] is the reading
    of [timings.stop('process_response')], [now] the one of [stop(...)].
    [if getattr(self, 'view_name', None):] is false for [None] and for the
    empty string. *)
Definition process_response {R} (lower : string → string) (cfg : Settings)
    (now_track now : float) (request : Request) (response : R) : M R :=
  (if TRACK_MIDDLEWARE cfg
   then scope_timings_method "stop"
          (λ a, timer_stop a now_track "process_response");; mret tt
   else mret tt);;
  v ← gets view_name;
  match v with
  | Some view =>
      if decide (view = "") then mret tt
      else stop cfg now (response_tags lower request view)
  | None => mret tt
  end;;
  cleanup;;
  mret response.

(** [process_exception(self, request, exception)] *)
Definition process_exception (cfg : Settings) (now : float) : M unit :=
  if TRACK_MIDDLEWARE cfg
  then scope_timings_method "stop"
         (λ a, timer_stop a now "process_exception");; mret tt
  else mret tt.

(** [process_template_response(self, request, response)] *)
Definition process_template_response {R} (cfg : Settings) (now : float)
    (response : R) : M R :=
  (if TRACK_MIDDLEWARE cfg
   then scope_timings_method "stop"
          (λ a, timer_stop a now "process_template_response");; mret tt
   else mret tt);;
  mret response.

End StatsdMiddleware.

(** ** StatsdMiddlewareTimer *)

(** The second middleware, placed at the other end of the middleware list:
    it closes the spans [StatsdMiddleware] opens on the way in and opens
    the spans it closes on the way out. *)
Module StatsdMiddlewareTimer.

Definition process_request (cfg : Settings) (now : float) : M unit :=
  if TRACK_MIDDLEWARE cfg
  then scope_timings_method "stop"
         (λ a, timer_stop a now "process_request");; mret tt
  else mret tt.

Definition process_view (cfg : Settings) (now : float) : M unit :=
  if TRACK_MIDDLEWARE cfg
  then scope_timings_method "stop"
         (λ a, timer_stop a now "process_view");; mret tt
  else mret tt.

Definition process_response {R} (cfg : Settings) (now : float) (response : R)
    : M R :=
  (if TRACK_MIDDLEWARE cfg
   then scope_timings_method "start"
          (λ a, timer_start a now "process_response")
   else mret tt);;
  mret response.

Definition process_exception (cfg : Settings) (now : float) : M unit :=
  if TRACK_MIDDLEWARE cfg
  then scope_timings_method "start"
         (λ a, timer_start a now "process_exception")
  else mret tt.

Definition process_template_response {R} (cfg : Settings) (now : float)
    (response : R) : M R :=
  (if TRACK_MIDDLEWARE cfg
   then scope_timings_method "start"
          (λ a, timer_start a now "process_template_response")
   else mret tt);;
  mret response.

End StatsdMiddlewareTimer.

(** ** Context managers *)

Inductive ContextManager : Type :=
| WithTimer (timer : nat) (key : string)
| DummyWith.

(** [__enter__]; [now] is the reading [WithTimer] takes, [DummyWith] takes
    none. *)
Definition cm_enter (cm : ContextManager) (now : float) : M unit :=
  match cm with
  | WithTimer timer key => timer_start timer now key
  | DummyWith => mret tt
  end.

(** [__exit__(type_, value, traceback)]: both classes return [None], so an
    exception of the body is never suppressed. *)
Definition cm_exit (cm : ContextManager) (now : float) : M unit :=
  match cm with
  | WithTimer timer key => timer_stop timer now key;; mret tt
  | DummyWith => mret tt
  end.

(** The statement [with mgr: body].  The manager expression and
    [__enter__] run first; once [__enter__] has returned, [__exit__] runs
    whether the body returned or raised.  An exception of [__exit__]
    replaces the outcome of the body. *)
Definition py_with {A} (mgr : M ContextManager) (t_enter t_exit : float)
    (body : M A) : M A := λ w,
  match mgr w with
  | (Raise e, w1) => (Raise e, w1)
  | (Ret cm, w1) =>
      match cm_enter cm t_enter w1 with
      | (Raise e, w2) => (Raise e, w2)
      | (Ret _, w2) =>
          let '(res, w3) := body w2 in
          match cm_exit cm t_exit w3 with
          | (Raise e, w4) => (Raise e, w4)
          | (Ret _, w4) => (res, w4)
          end
      end
  end.

(** ** Module-level helpers of [middleware.py] *)

Definition start (now : float) (key : string) : M unit :=
  t ← gets scope_timings;
  match t with
  | Some a => timer_start a now key
  | None => mret tt
  end.

Definition stop (now : float) (key : string) : M (option float) :=
  t ← gets scope_timings;
  match t with
  | Some a => d ← timer_stop a now key; mret (Some d)
  | None => mret None
  end.

(** [Timer.__call__] builds [WithTimer(self, key)]. *)
Definition with_ (key : string) : M ContextManager :=
  t ← gets scope_timings;
  match t with
  | Some a => mret (WithTimer a key)
  | None => mret DummyWith
  end.

Definition incr (key : string) (value : Z) : M unit :=
  c ← gets scope_counter;
  match c with
  | Some _ =>
      counter_update scope_counter set_counter "increment"
        (Counter.increment key value)
  | None => mret tt
  end.

Definition decr (key : string) (value : Z) : M unit :=
  c ← gets scope_counter;
  match c with
  | Some _ =>
      counter_update scope_counter set_counter "decrement"
        (Counter.decrement key value)
  | None => mret tt
  end.

(** [named_wrapper(name, f)], applied: [with with_(name): return f(...)]. *)
Definition named_wrapper {A} (name : string) (t_enter t_exit : float)
    (f : M A) : M A :=
  py_with (with_ name) t_enter t_exit f.

(** A function as [wrapper] sees it: its [__name__] and what a call of it
    does. *)
Record PyFunction (A : Type) : Type := {
  func_name : string;
  func_call : M A
}.
Arguments func_name {A} _.
Arguments func_call {A} _.

(** [wrapper(prefix, f)], applied:
    [with with_('%s.%s' % (prefix, f.__name__.lower())): return f(...)]. *)
Definition wrapper {A} (lower : string → string) (prefix : string)
    (t_enter t_exit : float) (f : PyFunction A) : M A :=
  py_with (with_ (prefix +:+ "." +:+ lower (func_name f))) t_enter t_exit
          (func_call f).

(** [decorator(prefix)] is [lambda f: wrapper(prefix, f)]. *)
Definition decorator {A} (lower : string → string) (prefix : string)
    : float → float → PyFunction A → M A :=
  λ t_enter t_exit f, wrapper lower prefix t_enter t_exit f.

(** ** Celery signal handlers *)

Module celery.

(** [task_prerun] *)
Definition start (cfg : Settings) (now : float) : M unit :=
  StatsdMiddleware.start cfg now "celery".

(** [task_postrun]; [task] is [kwargs.get('task')], a task object with its
    [name], or [None]. *)
Definition stop (cfg : Settings) (now : float) (task : option string) : M unit :=
  match task with
  | None => raise (AttributeError "NoneType" "name")
  | Some name =>
      StatsdMiddleware.stop cfg now (TagsStr name);;
      modify (set_timings None)
  end.

(** [task_failure] *)
Definition clear : M unit :=
  modify (set_timings None).

End celery.

(** ** Calls made by a host on one thread *)

(** The entry points a framework or instrumented code calls, with the clock
    readings they take. *)
Inductive Call : Type :=
| CallInit
| CallBegin (now : float) (prefix : string)
| CallEnd (now : float) (tags : PyTags)
| CallCleanup
| CallStart (now : float) (key : string)
| CallStop (now : float) (key : string)
| CallIncr (key : string) (value : Z)
| CallDecr (key : string) (value : Z)
| CallTaskPrerun (now : float)
| CallTaskPostrun (now : float) (task : option string)
| CallTaskFailure.

Definition call (cfg : Settings) (c : Call) : M unit :=
  match c with
  | CallInit => StatsdMiddleware.init
  | CallBegin now prefix => StatsdMiddleware.start cfg now prefix
  | CallEnd now tags => StatsdMiddleware.stop cfg now tags
  | CallCleanup => StatsdMiddleware.cleanup
  | CallStart now key => start now key
  | CallStop now key => stop now key;; mret tt
  | CallIncr key value => incr key value
  | CallDecr key value => decr key value
  | CallTaskPrerun now => celery.start cfg now
  | CallTaskPostrun now task => celery.stop cfg now task
  | CallTaskFailure => celery.clear
  end.

(** Runs the calls in order; an exception ends the call that raised it, and
    the host goes on with the next one.  Returns every call's outcome. *)
Fixpoint run_calls (cfg : Settings) (cs : list Call) (w : World)
    : list (Res unit) * World :=
  match cs with
  | [] => ([], w)
  | c :: rest =>
      let '(res, w') := call cfg c w in
      let '(ress, w'') := run_calls cfg rest w' in
      (res :: ress, w'')
  end.

(** ** Events, as the flush loops build them *)

Definition counter_event (prefix : string) (tags : list string) (r : float)
    (kv : string * Z) : Emission :=
  StatsdIncrement (prefix +:+ "." +:+ kv.1) kv.2 tags r.

Definition timer_event (prefix : string) (tags : list string) (r : float)
    (kv : string * float) : Emission :=
  StatsdTiming (prefix +:+ "." +:+ kv.1) kv.2 tags r.

(** ** Scenarios *)

(** [begin("view")], [increment("hit")], [end({method: "get"})]; [t0] and
    [t1] are the clock readings at begin and at end. *)
Definition scenario_view_hit (cfg : Settings) (t0 t1 : float) : M unit :=
  StatsdMiddleware.start cfg t0 "view";;
  incr "hit" 1;;
  StatsdMiddleware.stop cfg t1 (TagsDict [("method", "get")]).

(** Settings with the middleware tracking switched on and nothing else
    set: [sample_rate] is bound to its default 1.0. *)
Definition tracking_settings : Settings :=
  {| STATSD_TRACK_MIDDLEWARE := Some true;
     STATSD_SAMPLE_RATE := None;
     STATSD_PREFIX := None;
     DEBUG := false |}.

(** Settings with nothing set: [sample_rate] is unbound. *)
Definition default_settings : Settings :=
  {| STATSD_TRACK_MIDDLEWARE := None;
     STATSD_SAMPLE_RATE := None;
     STATSD_PREFIX := None;
     DEBUG := false |}.

(** Settings as [tracking_settings], in debug mode. *)
Definition debug_settings : Settings :=
  {| STATSD_TRACK_MIDDLEWARE := Some true;
     STATSD_SAMPLE_RATE := None;
     STATSD_PREFIX := None;
     DEBUG := true |}.

(** A celery task from prerun to postrun: [task_prerun] at [t0], then
    [task_postrun] at [t1] for the task named [name]. *)
Definition task_run (cfg : Settings) (t0 t1 : float) (name : string) : M unit :=
  celery.start cfg t0;;
  celery.stop cfg t1 (Some name).

(** ** What a thread can still send *)

(** Two worlds look the same from the entry points when their sinks have
    received the same events and either no timer is bound in both, or the
    bound timers and both counters are equal.  With no timer bound the
    counters are left out: no entry point reads them before [begin]
    replaces them. *)
Definition same_view (w1 w2 : World) : Prop :=
  sink w1 = sink w2 ∧
  match scope_timings w1, scope_timings w2 with
  | None, None => True
  | Some a1, Some a2 =>
      (∃ tm, timers w1 !! a1 = Some tm ∧ timers w2 !! a2 = Some tm)
      ∧ scope_counter w1 = scope_counter w2
      ∧ scope_counter_site w1 = scope_counter_site w2
  | _, _ => False
  end.

(** Both worlds have a timer bound, at [a1] and at [a2], and look the
    same. *)
Definition bound_view (a1 a2 : nat) (w1 w2 : World) : Prop :=
  sink w1 = sink w2
  ∧ scope_timings w1 = Some a1 ∧ scope_timings w2 = Some a2
  ∧ (∃ tm, timers w1 !! a1 = Some tm ∧ timers w2 !! a2 = Some tm)
  ∧ scope_counter w1 = scope_counter w2
  ∧ scope_counter_site w1 = scope_counter_site w2.

(** Two computations that, from worlds related by [P], give the same
    result and worlds related by [P]. *)
Definition related {A} (P : World → World → Prop) (m1 m2 : M A) : Prop :=
  ∀ w1 w2, P w1 w2 → (m1 w1).1 = (m2 w2).1 ∧ P (m1 w1).2 (m2 w2).2.

(** The world of a thread after [begin("view")] at clock reading 10, with
    tracking switched on. *)
Definition begun_world : World :=
  (StatsdMiddleware.start tracking_settings 10 "view" empty_world).2.

(** ** Runs of timer calls *)

Definition timer_op_key (op : TimerOp) : string :=
  match op with TStart _ k | TStop _ k => k end.

(** No key of the starts dictionary holds an empty deque: the dictionary
    is empty exactly when no span is open. *)
Definition no_empty_deque (tm : Timer.t) : Prop :=
  map_Forall (λ _ q, q ≠ []) (Timer.starts tm).

(** [n] starts of one key at the readings [ts], then as many stops at the
    readings [us]. *)
Definition nested_ops (key : string) (ts us : list float) : list TimerOp :=
  ((λ t, TStart t key) <$> ts) ++ ((λ u, TStop u key) <$> us).

(** One span after the other on one key, each given as its start and stop
    readings. *)
Definition sequential_ops (key : string) (spans : list (float * float))
    : list TimerOp :=
  spans ≫= λ span, [TStart span.1 key; TStop span.2 key].

(** The durations added one by one to a total, as [self.data[key] += delta]
    does. *)
Definition add_durations (total : float) (ds : list float) : float :=
  fold_left (λ acc d, (acc + d)%float) ds total.

(** ** Worlds the entry points build *)

(** A bound timer is in the store and comes with both counters: what
    [begin] sets up and every entry point keeps. *)
Definition scope_consistent (w : World) : Prop :=
  match scope_timings w with
  | Some a =>
      is_Some (timers w !! a)
      ∧ is_Some (scope_counter w) ∧ is_Some (scope_counter_site w)
  | None => True
  end.

(** The exceptions the entry points raise by themselves or on a caller's
    mistake: a failed assertion, the unbound [sample_rate], a [str] passed
    as tags, a missing task. *)
Definition documented_error (e : PyExc) : Prop :=
  match e with
  | AssertionError _ | NameError _ => True
  | AttributeError obj attr =>
      (obj = "str" ∧ attr = "items") ∨ (obj = "NoneType" ∧ attr = "name")
  | _ => False
  end.

Definition documented_outcome {A} (r : Res A) : Prop :=
  match r with Ret _ => True | Raise e => documented_error e end.

(** The helpers instrumented code calls, and [end]. *)
Definition is_helper_call (c : Call) : bool :=
  match c with
  | CallEnd _ _ | CallStart _ _ | CallStop _ _
  | CallIncr _ _ | CallDecr _ _ => true
  | _ => false
  end.

(** A failed celery task: [task_prerun], [task_failure], then the
    [task_postrun] that celery sends for every task. *)
Definition failed_task_run (cfg : Settings) (t0 t1 : float) (name : string)
    : M unit :=
  celery.start cfg t0;;
  celery.clear;;
  celery.stop cfg t1 (Some name).

(** ** A request through both middlewares *)

(** The hooks a request runs through when a view is resolved and returns
    a response, [StatsdMiddleware] first in the middleware list and
    [StatsdMiddlewareTimer] last; [t0] to [t7] are the clock readings, in
    call order (with tracking off only [t0] and [t7] are taken). *)
Definition tracked_request {R} (lower : string → string) (cfg : Settings)
    (t0 t1 t2 t3 t4 t5 t6 t7 : float)
    (view : ViewFunc) (request : Request) (response : R) : M R :=
  StatsdMiddleware.process_request cfg t0 t1;;
  StatsdMiddlewareTimer.process_request cfg t2;;
  StatsdMiddleware.process_view cfg t3 view;;
  StatsdMiddlewareTimer.process_view cfg t4;;
  StatsdMiddlewareTimer.process_response cfg t5 response;;
  StatsdMiddleware.process_response lower cfg t6 t7 request response.

(** A request answered before any view is resolved: [process_view] never
    runs. *)
Definition unresolved_request {R} (lower : string → string) (cfg : Settings)
    (t0 t1 t5 t6 t7 : float) (request : Request) (response : R) : M R :=
  StatsdMiddleware.process_request cfg t0 t1;;
  StatsdMiddlewareTimer.process_response cfg t5 response;;
  StatsdMiddleware.process_response lower cfg t6 t7 request response.

(** The name [process_view] records for a view. *)
Definition view_name_of (view : ViewFunc) : string :=
  view_module view +:+ "." +:+
  match view_func_name view with
  | Some name => name
  | None => view_class_name view
  end.

(** * Properties *)

(** ** Dictionaries and metric names *)

Lemma metric_name_inj (prefix k1 k2 : string) :
  prefix +:+ "." +:+ k1 = prefix +:+ "." +:+ k2 → k1 = k2.
Proof.
  intros H. apply (inj (String.app prefix)) in H.
  by apply (inj (String.app ".")) in H.
Qed.

(** The items of a dictionary under one key: its binding, if it has one. *)
Lemma map_items_of_key {V} (m : gmap string V) (k : string) :
  filter (λ kv, kv.1 = k) (map_to_list m) =
    match m !! k with Some v => [(k, v)] | None => [] end.
Proof.
  induction m as [|i x m Hi IH] using map_ind.
  - by rewrite map_to_list_empty, lookup_empty.
  - assert (Hperm : filter (λ kv, kv.1 = k) (map_to_list (<[i:=x]> m))
                    ≡ₚ filter (λ kv, kv.1 = k) ((i, x) :: map_to_list m))
      by (by rewrite map_to_list_insert).
    rewrite filter_cons, IH in Hperm. cbn [fst] in Hperm.
    destruct (decide (i = k)) as [->|Hne].
    + rewrite lookup_insert_eq. rewrite Hi in Hperm.
      by apply Permutation_singleton_r.
    + rewrite lookup_insert_ne by done. destruct (m !! k).
      * by apply Permutation_singleton_r.
      * by apply Permutation_nil_r.
Qed.

Lemma filter_fmap_comp {A B} (f : A → B) (P : B → Prop)
    `{!∀ b, Decision (P b)} (l : list A) :
  filter P (f <$> l) = f <$> filter (λ a, P (f a)) l.
Proof.
  induction l as [|a l IH]; [done|].
  rewrite fmap_cons, !filter_cons, IH. by destruct (decide (P (f a))).
Qed.

(** ** Counter *)

Lemma decrement_as_increment (key : string) (delta : Z) (c : Counter.t) :
  Counter.decrement key delta c = Counter.increment key (- delta) c.
Proof. unfold Counter.decrement, Counter.increment. do 3 f_equal. Qed.

Lemma counter_run_prefix (ops : list CounterOp) (c : Counter.t) :
  Counter.prefix (counter_run ops c) = Counter.prefix c.
Proof.
  revert c. induction ops as [|op ops IH]; intros c; [done|].
  unfold counter_run in *. cbn [fold_left]. rewrite IH. by destruct op.
Qed.

(** The value held for a key after a run of calls: what was there before
    plus the signed deltas of the calls on that key. *)
Lemma counter_run_value (key : string) (ops : list CounterOp) (c : Counter.t) :
  default 0 (Counter.data (counter_run ops c) !! key) =
  default 0 (Counter.data c !! key) + delta_sum key ops.
Proof.
  revert c. induction ops as [|op ops IH]; intros c.
  - cbn. lia.
  - unfold counter_run in *. cbn [fold_left foldr delta_sum]. rewrite IH.
    fold (delta_sum key ops).
    destruct op as [k d|k d]; cbn [counter_step signed_delta Counter.data
      Counter.increment Counter.decrement];
      (destruct (decide (k = key)) as [->|Hne];
       [rewrite lookup_insert_eq | rewrite lookup_insert_ne by done]);
      simpl; lia.
Qed.

(** A key no call has touched has no entry at all. *)
Lemma counter_run_untouched (key : string) (ops : list CounterOp) (c : Counter.t) :
  Forall (λ op, match op with Incr k _ | Decr k _ => k ≠ key end) ops →
  Counter.data (counter_run ops c) !! key = Counter.data c !! key.
Proof.
  revert c. induction ops as [|op ops IH]; intros c Hall; [done|].
  apply Forall_cons in Hall as [Hop Hall].
  unfold counter_run in *. cbn [fold_left]. rewrite IH by done.
  destruct op; cbn; by rewrite lookup_insert_ne.
Qed.

(** With [sample_rate] bound the loop never raises and sends one event per
    non-zero item, in iteration order. *)
Lemma counter_submit_loop_bound prefix tags r (items : list (string * Z)) :
  Counter.submit_loop prefix tags (Some r) items =
  (Ret tt, counter_event prefix tags r <$> filter (λ kv, kv.2 ≠ 0) items).
Proof.
  induction items as [|[k v] items IH]; [done|].
  cbn [Counter.submit_loop]. rewrite filter_cons. cbn [snd].
  destruct (decide (v = 0)) as [->|Hv].
  - by rewrite decide_False by (intros ?; done).
  - rewrite decide_True by done. by rewrite IH.
Qed.

(** With [sample_rate] unbound nothing is ever sent, and the first non-zero
    item raises [NameError]. *)
Lemma counter_submit_loop_unbound prefix tags (items : list (string * Z)) :
  Counter.submit_loop prefix tags None items =
  (if decide (Forall (λ kv, kv.2 = 0) items) then Ret tt
   else Raise (NameError "sample_rate"), []).
Proof.
  induction items as [|[k v] items IH]; [done|].
  cbn [Counter.submit_loop]. destruct (decide (v = 0)) as [->|Hv].
  - rewrite IH. destruct (decide (Forall _ items)) as [Hall|Hall].
    + by rewrite decide_True by (by constructor).
    + rewrite decide_False; [done|]. by intros [_ ?]%Forall_cons.
  - rewrite decide_False; [done|]. by intros [? _]%Forall_cons.
Qed.

Lemma filter_swap {A} (P Q : A → Prop) `{!∀ x, Decision (P x)}
    `{!∀ x, Decision (Q x)} (l : list A) :
  filter P (filter Q l) = filter Q (filter P l).
Proof. rewrite !list_filter_filter. apply list_filter_iff. tauto. Qed.

(** The events a flush sends under the metric name of one key. *)
Lemma counter_submit_key rate items (c : Counter.t) (key : string) :
  emitted_as (Counter.prefix c +:+ "." +:+ key)
             (Counter.submit rate (TagsDict items) c).2 =
  match rate with
  | Some r =>
      if decide (default 0 (Counter.data c !! key) = 0) then []
      else [StatsdIncrement (Counter.prefix c +:+ "." +:+ key)
              (default 0 (Counter.data c !! key)) (tag_strings items) r]
  | None => []
  end.
Proof.
  unfold Counter.submit, emitted_as. cbn [format_tags].
  destruct rate as [r|].
  - rewrite counter_submit_loop_bound. cbn [snd].
    rewrite filter_fmap_comp.
    rewrite (list_filter_iff _ (λ kv : string * Z, kv.1 = key)).
    2:{ intros [k v]. cbn. split; [apply metric_name_inj | by intros ->]. }
    rewrite filter_swap, map_items_of_key.
    destruct (Counter.data c !! key) as [v|]; cbn [default from_option id].
    + rewrite filter_cons, filter_nil. cbn [snd].
      destruct (decide (v = 0)) as [->|Hv].
      * by rewrite decide_False by (intros ?; done).
      * by rewrite decide_True by done.
    + by rewrite filter_nil.
  - rewrite counter_submit_loop_unbound. by cbn.
Qed.

(** A flush with [sample_rate] bound returns normally. *)
Lemma counter_submit_returns r items (c : Counter.t) :
  (Counter.submit (Some r) (TagsDict items) c).1 = Ret tt.
Proof.
  unfold Counter.submit. cbn [format_tags].
  by rewrite counter_submit_loop_bound.
Qed.

(** X18.  With [sample_rate] bound: for every sequence of [increment]
    and [decrement] calls on a new [Counter] and every key, the flush
    returns normally and sends under that key's metric name exactly one
    event carrying the algebraic sum of the deltas (a decrement counting
    as its negated delta), and nothing at all when the sum is zero;
    [decrement(key, delta)] is [increment(key, -delta)].  With
    [sample_rate] unbound no event is sent for any key. *)
Theorem counter_flush_is_delta_sum
    (cfg : Settings) (prefix : string) (ops : list CounterOp)
    (key : string) (items : list (string * string)) (rate : option float) :
  let c := counter_run ops (Counter.new cfg prefix) in
  let name := Counter.prefix c +:+ "." +:+ key in
  emitted_as name (Counter.submit rate (TagsDict items) c).2 =
    match rate with
    | Some r =>
        if decide (delta_sum key ops = 0) then []
        else [StatsdIncrement name (delta_sum key ops) (tag_strings items) r]
    | None => []
    end
  ∧ (∀ r, (Counter.submit (Some r) (TagsDict items) c).1 = Ret tt)
  ∧ (∀ delta c', Counter.decrement key delta c' =
                 Counter.increment key (- delta) c').
Proof.
  intros c name. split; [|split].
  - unfold name. rewrite counter_submit_key.
    replace (default 0 (Counter.data c !! key)) with (delta_sum key ops); [done|].
    unfold c. rewrite counter_run_value. cbn. by rewrite lookup_empty.
  - intros r. apply counter_submit_returns.
  - intros. apply decrement_as_increment.
Qed.

(** ** Timer *)

Lemma deque_pop_snoc (q : list float) (x : float) :
  Timer.deque_pop (q ++ [x]) = Some (x, q).
Proof.
  induction q as [|y q IH]; [done|].
  cbn [app Timer.deque_pop]. by rewrite IH.
Qed.

Lemma deque_pop_None (q : list float) : Timer.deque_pop q = None ↔ q = [].
Proof.
  split; [|by intros ->].
  destruct q as [|y q]; [done|]. cbn.
  by destruct (Timer.deque_pop q) as [[??]|].
Qed.

(** [start] then [stop] on one key: the span just opened is the one closed,
    and the deque is what it was. *)
Lemma timer_start_stop (t_in t_out : float) (key : string) (tm : Timer.t) :
  Timer.stop t_out key (Timer.start t_in key tm) =
  (Ret (t_out - t_in)%float,
   {| Timer.prefix := Timer.prefix tm;
      Timer.starts :=
        match default [] (Timer.starts tm !! key) with
        | [] => delete key (Timer.starts tm)
        | q => <[key := q]> (Timer.starts tm)
        end;
      Timer.data :=
        <[key := (default 0 (Timer.data tm !! key) + (t_out - t_in))%float]>
          (Timer.data tm) |}).
Proof.
  unfold Timer.stop, Timer.start. cbn [Timer.starts Timer.data Timer.prefix].
  rewrite lookup_insert_eq. cbn [default from_option id].
  rewrite deque_pop_snoc. f_equal. f_equal.
  destruct (default [] (Timer.starts tm !! key)) as [|x q].
  - by rewrite delete_insert_eq.
  - by rewrite insert_insert_eq.
Qed.

Lemma timer_start_deque (now : float) (key : string) (tm : Timer.t) :
  default [] (Timer.starts (Timer.start now key tm) !! key) =
  default [] (Timer.starts tm !! key) ++ [now].
Proof. cbn. by rewrite lookup_insert_eq. Qed.

(** The nested sequence on an arbitrary timer, in closed form. *)
Lemma timer_nested_run (t1 t2 t3 t4 : float) (key : string) (tm : Timer.t) :
  timer_run [TStart t1 key; TStart t2 key; TStop t3 key; TStop t4 key] tm =
  (Ret [(t3 - t2)%float; (t4 - t1)%float],
   {| Timer.prefix := Timer.prefix tm;
      Timer.starts :=
        match default [] (Timer.starts tm !! key) with
        | [] => delete key (Timer.starts tm)
        | q => <[key := q]> (Timer.starts tm)
        end;
      Timer.data :=
        <[key := (default 0 (Timer.data tm !! key)
                  + (t3 - t2) + (t4 - t1))%float]> (Timer.data tm) |}).
Proof.
  cbn [timer_run]. rewrite timer_start_stop.
  rewrite timer_start_deque.
  set (tm1 := {| Timer.prefix := Timer.prefix tm;
                 Timer.starts := Timer.starts tm;
                 Timer.data :=
                   <[key := (default 0 (Timer.data tm !! key)
                             + (t3 - t2))%float]> (Timer.data tm) |}).
  match goal with
  | |- context [Timer.stop t4 key ?x] =>
      replace x with (Timer.start t1 key tm1)
  end.
  - rewrite timer_start_stop. unfold tm1.
    cbn [Timer.prefix Timer.starts Timer.data].
    rewrite lookup_insert_eq, insert_insert_eq. done.
  - unfold tm1, Timer.start. cbn [Timer.prefix Timer.starts Timer.data].
    f_equal.
    destruct (default [] (Timer.starts tm !! key)) as [|x q];
      cbn [app]; by rewrite insert_insert_eq.
Qed.

(** C6.  For every timer, key and clock readings, the nested sequence
    [start(k); start(k); stop(k); stop(k)] is accepted: the first [stop]
    pops the second start time, the second [stop] pops the first, and the
    total accumulated for [k] afterwards is what it was before (0.0 on a new
    timer) plus the inner and the outer elapsed durations; the deque of
    outstanding starts of [k] is what it was before. *)
Theorem timer_nested_spans
    (cfg : Settings) (prefix : string)
    (t1 t2 t3 t4 : float) (key : string) (tm : Timer.t) :
  let inner := (t3 - t2)%float in
  let outer := (t4 - t1)%float in
  let nested := [TStart t1 key; TStart t2 key; TStop t3 key; TStop t4 key] in
  (timer_run nested tm).1 = Ret [inner; outer]
  ∧ Timer.data (timer_run nested tm).2 !! key =
      Some (default 0 (Timer.data tm !! key) + inner + outer)%float
  ∧ default [] (Timer.starts (timer_run nested tm).2 !! key) =
      default [] (Timer.starts tm !! key)
  ∧ Timer.data (timer_run nested (Timer.new cfg prefix)).2 !! key =
      Some (0 + inner + outer)%float
  ∧ Timer.starts (timer_run nested (Timer.new cfg prefix)).2 = ∅.
Proof.
  intros inner outer nested. unfold nested.
  rewrite !timer_nested_run. cbn [fst snd Timer.data Timer.starts].
  split; [done|]. split; [by rewrite lookup_insert_eq|].
  split; [|split].
  - destruct (Timer.starts tm !! key) as [[|x q]|] eqn:Hs;
      cbn [default from_option id].
    + by rewrite lookup_delete_eq.
    + by rewrite lookup_insert_eq.
    + by rewrite lookup_delete_eq.
  - by rewrite lookup_insert_eq.
  - cbn. by rewrite lookup_empty, delete_empty.
Qed.

(** C5.  On every timer, [stop(k)] for a key with no outstanding start
    (no deque under [k], or an empty one) raises [AssertionError] with the
    "never started tracking it" message.  No duration is recorded: the
    accumulated totals are untouched.  Called through the module-level
    [stop(key)] on the current scope, the exception reaches the caller and
    nothing is sent to the sink. *)
Theorem timer_stop_without_start
    (now : float) (key : string) (tm : Timer.t) (w : World) (a : nat) :
  default [] (Timer.starts tm !! key) = [] →
  scope_timings w = Some a →
  timers w !! a = Some tm →
  (Timer.stop now key tm).1 = Raise (AssertionError (Timer.stop_message key))
  ∧ Timer.data (Timer.stop now key tm).2 = Timer.data tm
  ∧ (stop now key w).1 = Raise (AssertionError (Timer.stop_message key))
  ∧ sink (stop now key w).2 = sink w
  ∧ (Timer.data <$> timers (stop now key w).2 !! a) = Some (Timer.data tm).
Proof.
  intros Hq Ht Ha. unfold Timer.stop. rewrite Hq. cbn [Timer.deque_pop fst snd].
  split; [done|]. split; [done|].
  unfold stop, timer_stop, on_timer, mbind, M_bind, gets.
  rewrite Ht, Ha. unfold Timer.stop. rewrite Hq. cbn.
  rewrite app_nil_r. split; [done|]. split; [done|].
  rewrite list_lookup_insert_eq by (by eapply lookup_lt_Some). done.
Qed.

(** *** Flushing a timer *)

(** With [sample_rate] bound, popping the snapshot of keys sends one event
    per entry and leaves no entry behind. *)
Lemma timer_submit_loop_bound prefix tags r
    (items : list (string * float)) (data : gmap string float) :
  NoDup items.*1 →
  (∀ k v, (k, v) ∈ items ↔ data !! k = Some v) →
  Timer.submit_loop prefix tags (Some r) items.*1 data =
  (Ret tt, ∅, timer_event prefix tags r <$> items).
Proof.
  revert data. induction items as [|[k v] items IH]; intros data Hnd Hin.
  - cbn. do 2 f_equal. apply map_empty. intros i.
    destruct (data !! i) as [x|] eqn:Hi; [|done].
    apply Hin in Hi. by apply elem_of_nil in Hi.
  - cbn [fmap list_fmap fst Timer.submit_loop].
    apply NoDup_cons in Hnd as [Hk Hnd].
    assert (data !! k = Some v) as -> by (apply Hin; left).
    rewrite (IH (delete k data)); [done|done|].
    intros k' v'. rewrite lookup_delete_Some, <- Hin, elem_of_cons.
    split.
    + intros Hkv. split; [|by right].
      intros <-. apply Hk. apply list_elem_of_fmap. by exists (k, v').
    + intros [Hne [[= ??]|?]]; [congruence|done].
Qed.

Lemma timer_submit_bound r (debug : bool) items (tm : Timer.t) :
  Timer.submit (Some r) debug (TagsDict items) tm =
  (if debug && negb (bool_decide (Timer.starts tm = ∅))
   then Raise (AssertionError Timer.submit_message) else Ret tt,
   {| Timer.prefix := Timer.prefix tm;
      Timer.starts := Timer.starts tm;
      Timer.data := ∅ |},
   timer_event (Timer.prefix tm) (tag_strings items) r
     <$> map_to_list (Timer.data tm)).
Proof.
  unfold Timer.submit. cbn [format_tags].
  rewrite timer_submit_loop_bound.
  - by destruct (debug && _).
  - apply NoDup_fst_map_to_list.
  - intros k v. apply elem_of_map_to_list.
Qed.

(** With [sample_rate] unbound, the first entry is popped and then
    [NameError] is raised; nothing is sent. *)
Lemma timer_submit_unbound (debug : bool) items (tm : Timer.t) :
  Timer.submit None debug (TagsDict items) tm =
  match map_to_list (Timer.data tm) with
  | [] =>
      (if debug && negb (bool_decide (Timer.starts tm = ∅))
       then Raise (AssertionError Timer.submit_message) else Ret tt,
       tm, [])
  | (k, _) :: _ =>
      (Raise (NameError "sample_rate"),
       {| Timer.prefix := Timer.prefix tm;
          Timer.starts := Timer.starts tm;
          Timer.data := delete k (Timer.data tm) |}, [])
  end.
Proof.
  unfold Timer.submit. cbn [format_tags].
  destruct (map_to_list (Timer.data tm)) as [|[k v] l] eqn:Hl.
  - cbn. destruct tm. apply map_to_list_empty_iff in Hl. cbn in *.
    subst. by destruct (debug && _).
  - cbn [fmap list_fmap fst Timer.submit_loop].
    assert (Timer.data tm !! k = Some v) as ->; [|done].
    apply elem_of_map_to_list. rewrite Hl. left.
Qed.

(** The Timer half of the flush-clears property: after a flush the totals
    are empty, and a second flush sends nothing. *)
Lemma timer_flush_clears r (debug : bool) items items' (tm : Timer.t) :
  let tm' := (Timer.submit (Some r) debug (TagsDict items) tm).1.2 in
  Timer.data tm' = ∅
  ∧ (Timer.submit (Some r) debug (TagsDict items') tm').2 = [].
Proof.
  cbn zeta. rewrite !timer_submit_bound. cbn [fst snd Timer.data].
  by rewrite map_to_list_empty.
Qed.

(** *** A call on a Timer in the store *)

Lemma on_timer_lookup {A} (a : nat) (tm : Timer.t) (w : World)
    (method : Timer.t → Res A * Timer.t * list Emission) :
  timers w !! a = Some tm →
  on_timer a method w =
  ((method tm).1.1,
   set_sink (sink w ++ (method tm).2)
            (set_timers (<[a := (method tm).1.2]> (timers w)) w)).
Proof.
  intros Ha. unfold on_timer. rewrite Ha.
  by destruct (method tm) as [[res tm'] out].
Qed.

(** [StatsdMiddleware.start] in closed form: a new timer with the "total"
    span open, and two new counters holding one "hit" each. *)
Lemma middleware_start_world cfg (now : float) (prefix : string) (w : World) :
  StatsdMiddleware.start cfg now prefix w =
  (Ret tt,
   mkWorld (timers w ++ [Timer.start now "total" (Timer.new cfg prefix)])
           (Some (length (timers w)))
           (Some (Counter.increment "hit" 1 (Counter.new cfg prefix)))
           (Some (Counter.increment "hit" 1 (Counter.new cfg prefix)))
           (sink w) (view_name w) (request_statsd w)).
Proof.
  unfold StatsdMiddleware.start, mbind, M_bind, alloc_timer, modify,
    timer_start, on_timer, counter_update.
  cbn -[Timer.start Timer.new Counter.increment Counter.new].
  rewrite list_lookup_middle by done.
  cbn -[Timer.start Timer.new Counter.increment Counter.new].
  rewrite app_nil_r, insert_app_r_alt by done.
  by rewrite Nat.sub_diag.
Qed.

(** ** The lifecycle controller *)

Lemma middleware_stop_no_scope cfg (now : float) (tags : PyTags) (w : World) :
  scope_timings w = None → StatsdMiddleware.stop cfg now tags w = (Ret tt, w).
Proof.
  intros Ht. unfold StatsdMiddleware.stop, mbind, M_bind, gets. by rewrite Ht.
Qed.

(** [end], step by step: its outcome, what the sink receives and what the
    scope holds afterwards, from the four calls it makes. *)
Lemma middleware_stop_steps
    (cfg : Settings) (now : float) (tags : PyTags) (w : World) :
  match scope_timings w with
  | None => StatsdMiddleware.stop cfg now tags w = (Ret tt, w)
  | Some a =>
      StatsdMiddleware.stop cfg now tags w =
      (timer_stop a now "total";;
       timer_submit cfg a tags;;
       counter_submit cfg scope_counter tags;;
       counter_submit cfg scope_counter_site (TagsDict [("type", "site")])) w
  end
  ∧ ∀ a tm c cs,
      scope_timings w = Some a →
      timers w !! a = Some tm →
      scope_counter w = Some c →
      scope_counter_site w = Some cs →
      let rate := sample_rate cfg in
      let stopped := Timer.stop now "total" tm in
      let flushed := Timer.submit rate (DEBUG cfg) tags stopped.2 in
      let primary := Counter.submit rate tags c in
      let site := Counter.submit rate (TagsDict [("type", "site")]) cs in
      let w' := (StatsdMiddleware.stop cfg now tags w).2 in
      (StatsdMiddleware.stop cfg now tags w).1 =
        match stopped.1, flushed.1.1, primary.1 with
        | Raise e, _, _ | Ret _, Raise e, _ | Ret _, Ret _, Raise e => Raise e
        | Ret _, Ret _, Ret _ => site.1
        end
      ∧ sink w' =
        sink w ++
        (if is_raise stopped.1 then []
         else flushed.2 ++
              if is_raise flushed.1.1 then []
              else primary.2 ++ if is_raise primary.1 then [] else site.2)
      ∧ timers w' !! a =
          Some (if is_raise stopped.1 then stopped.2 else flushed.1.2)
      ∧ scope_timings w' = Some a
      ∧ scope_counter w' = Some c
      ∧ scope_counter_site w' = Some cs.
Proof.
  split.
  - destruct (scope_timings w) as [a|] eqn:Ht.
    + unfold StatsdMiddleware.stop, mbind at 1, M_bind at 1, gets.
      by rewrite Ht.
    + by apply middleware_stop_no_scope.
  - intros a tm c cs Ht Ha Hc Hcs rate stopped flushed primary site w'.
    assert (Hlt : (a < length (timers w))%nat) by (by eapply lookup_lt_Some).
    assert (Hrun : StatsdMiddleware.stop cfg now tags w =
                   ((StatsdMiddleware.stop cfg now tags w).1, w'))
      by (by destruct (StatsdMiddleware.stop cfg now tags w)).
    revert Hrun. generalize w' (StatsdMiddleware.stop cfg now tags w).1.
    clear w'. intros w' res.
    unfold StatsdMiddleware.stop, mbind, M_bind, gets.
    rewrite Ht. unfold timer_stop, timer_submit.
    rewrite (on_timer_lookup a tm) by done.
    fold stopped. destruct stopped as [[d|e] tm1] eqn:Hstop;
      cbn [fst snd is_raise].
    2:{ intros [= <- <-]. cbn.
        by rewrite app_nil_r, list_lookup_insert_eq. }
    rewrite (on_timer_lookup a tm1).
    2:{ cbn. by rewrite list_lookup_insert_eq. }
    fold rate. subst flushed. cbn [snd].
    destruct (Timer.submit rate (DEBUG cfg) tags tm1) as [[[[]|e] tm2] out_t];
      cbn [fst snd is_raise].
    2:{ intros [= <- <-]. cbn.
        by rewrite !app_nil_r, list_insert_insert_eq, list_lookup_insert_eq. }
    unfold counter_submit at 1. cbn [scope_counter set_sink set_timers].
    rewrite Hc. fold rate. fold primary.
    destruct primary as [[[]|e] out_c]; cbn [fst snd is_raise].
    2:{ intros [= <- <-]. cbn.
        by rewrite !app_nil_r, list_insert_insert_eq, list_lookup_insert_eq,
          <- !(assoc_L (++)). }
    unfold counter_submit. cbn [scope_counter_site set_sink set_timers].
    rewrite Hcs. fold rate. fold site.
    destruct site as [r4 out_s]. intros [= <- <-]. cbn.
    by rewrite !app_nil_r, list_insert_insert_eq, list_lookup_insert_eq,
      <- !(assoc_L (++)).
Qed.

(** C7.  [end(tags)] returns normally and changes nothing when the scope
    has no timer bound.  Otherwise it runs, in this order, the stop of the
    "total" span, the Timer flush with [tags], the primary Counter flush
    with [tags] and the site Counter flush with [{type: "site"}]; a step
    that raises ends the sequence.  On a scope whose three bindings are
    set, the sink therefore receives the timer's events, then the primary
    counter's, then the site counter's, and the bindings stay in place. *)
Theorem middleware_stop_order
    (cfg : Settings) (now : float) (tags : PyTags) (w : World) :
  match scope_timings w with
  | None => StatsdMiddleware.stop cfg now tags w = (Ret tt, w)
  | Some a =>
      StatsdMiddleware.stop cfg now tags w =
      (timer_stop a now "total";;
       timer_submit cfg a tags;;
       counter_submit cfg scope_counter tags;;
       counter_submit cfg scope_counter_site (TagsDict [("type", "site")])) w
  end
  ∧ ∀ a tm c cs,
      scope_timings w = Some a →
      timers w !! a = Some tm →
      scope_counter w = Some c →
      scope_counter_site w = Some cs →
      let rate := sample_rate cfg in
      let stopped := Timer.stop now "total" tm in
      let flushed := Timer.submit rate (DEBUG cfg) tags stopped.2 in
      let primary := Counter.submit rate tags c in
      let site := Counter.submit rate (TagsDict [("type", "site")]) cs in
      let w' := (StatsdMiddleware.stop cfg now tags w).2 in
      (StatsdMiddleware.stop cfg now tags w).1 =
        match stopped.1, flushed.1.1, primary.1 with
        | Raise e, _, _ | Ret _, Raise e, _ | Ret _, Ret _, Raise e => Raise e
        | Ret _, Ret _, Ret _ => site.1
        end
      ∧ sink w' =
        sink w ++
        (if is_raise stopped.1 then []
         else flushed.2 ++
              if is_raise flushed.1.1 then []
              else primary.2 ++ if is_raise primary.1 then [] else site.2)
      ∧ timers w' !! a =
          Some (if is_raise stopped.1 then stopped.2 else flushed.1.2)
      ∧ scope_timings w' = Some a
      ∧ scope_counter w' = Some c
      ∧ scope_counter_site w' = Some cs.
Proof. exact (middleware_stop_steps cfg now tags w). Qed.

Lemma init_prefix_no_global cfg (prefix : string) :
  STATSD_PREFIX cfg = None → Client.init_prefix cfg prefix = prefix.
Proof. intros H. unfold Client.init_prefix. by rewrite H. Qed.

Lemma incr_world (key : string) (value : Z) (w : World) :
  incr key value w =
  (Ret tt, set_counter (Counter.increment key value <$> scope_counter w) w).
Proof.
  unfold incr, counter_update, mbind, M_bind, gets.
  destruct w as [ts t [c|] cs s v b]; done.
Qed.

Lemma decr_world (key : string) (value : Z) (w : World) :
  decr key value w =
  (Ret tt, set_counter (Counter.decrement key value <$> scope_counter w) w).
Proof.
  unfold decr, counter_update, mbind, M_bind, gets.
  destruct w as [ts t [c|] cs s v b]; done.
Qed.

(** C2, as the code has it.  With [sample_rate] bound to [r] and no global
    prefix, [begin("view")], [increment("hit")], [end({method: "get"})]
    returns normally and sends exactly three events: the timing
    [view.total] with the elapsed time (added to the initial 0.0) tagged
    [method:get], the counter [view.hit] with value 2 tagged [method:get]
    ([begin] has already counted one hit), and the counter [view.hit] with
    value 1 tagged [type:site]. *)
Theorem scenario_view_hit_emissions
    (cfg : Settings) (r t0 t1 : float) (w : World) :
  sample_rate cfg = Some r →
  STATSD_PREFIX cfg = None →
  (scenario_view_hit cfg t0 t1 w).1 = Ret tt
  ∧ sink (scenario_view_hit cfg t0 t1 w).2 =
      sink w ++
      [StatsdTiming "view.total" (0 + (t1 - t0))%float ["method:get"] r;
       StatsdIncrement "view.hit" 2 ["method:get"] r;
       StatsdIncrement "view.hit" 1 ["type:site"] r].
Proof.
  intros Hr Hp. unfold scenario_view_hit, mbind, M_bind.
  rewrite middleware_start_world.
  unfold Timer.new, Counter.new. rewrite !init_prefix_no_global by done.
  set (tm := Timer.start t0 "total" (Timer.mk "view" ∅ ∅)).
  rewrite incr_world.
  cbn -[tm StatsdMiddleware.stop Counter.increment].
  match goal with |- context [StatsdMiddleware.stop _ _ _ ?w1] =>
    set (w1' := w1) end.
  destruct (middleware_stop_steps cfg t1 (TagsDict [("method", "get")]) w1')
    as [_ Hstop].
  specialize (Hstop (length (timers w)) tm _ _ eq_refl
    (list_lookup_middle _ _ _ _ eq_refl) eq_refl eq_refl).
  cbn zeta in Hstop. destruct Hstop as (Hres & Hsink & _).
  rewrite Hres, Hsink. clear Hres Hsink.
  unfold tm. rewrite timer_start_stop, Hr. cbn [fst snd is_raise].
  rewrite timer_submit_bound.
  cbn [Timer.starts Timer.data Timer.prefix fst snd].
  rewrite lookup_empty. cbn [default from_option id].
  rewrite delete_empty, insert_empty, map_to_list_singleton.
  rewrite bool_decide_eq_true_2 by done.
  rewrite andb_false_r. cbn [is_raise].
  split; by vm_compute.
Qed.

(** The scenario of C2 at concrete readings: the primary counter is sent
    with value 2, so the three events the claim lists are not what the sink
    receives. *)
Lemma scenario_view_hit_counterexample :
  let w := (scenario_view_hit tracking_settings 10 12.5 empty_world).2 in
  sink w =
    [StatsdTiming "view.total" 2.5 ["method:get"] 1;
     StatsdIncrement "view.hit" 2 ["method:get"] 1;
     StatsdIncrement "view.hit" 1 ["type:site"] 1]
  ∧ ¬ sink w ≡ₚ
      [StatsdIncrement "view.hit" 1 ["method:get"] 1;
       StatsdIncrement "view.hit" 1 ["type:site"] 1;
       StatsdTiming "view.total" 2.5 ["method:get"] 1].
Proof.
  cbn zeta.
  assert (Hs : sink (scenario_view_hit tracking_settings 10 12.5 empty_world).2 =
    [StatsdTiming "view.total" 2.5 ["method:get"] 1;
     StatsdIncrement "view.hit" 2 ["method:get"] 1;
     StatsdIncrement "view.hit" 1 ["type:site"] 1]) by (by vm_compute).
  split; [done|]. rewrite Hs. intros Hperm.
  assert (Hin : StatsdIncrement "view.hit" 1 ["method:get"] 1 ∈
    [StatsdTiming "view.total" 2.5 ["method:get"] 1;
     StatsdIncrement "view.hit" 2 ["method:get"] 1;
     StatsdIncrement "view.hit" 1 ["type:site"] 1]).
  { rewrite Hperm. left. }
  rewrite !elem_of_cons, elem_of_nil in Hin.
  destruct Hin as [?|[?|[?|[]]]]; discriminate.
Qed.

Lemma scenario_view_hit_witness :
  (scenario_view_hit tracking_settings 10 12.5 empty_world).1 = Ret tt
  ∧ sink (scenario_view_hit tracking_settings 10 12.5 empty_world).2 =
      sink empty_world ++
      [StatsdTiming "view.total" (0 + (12.5 - 10))%float ["method:get"] 1;
       StatsdIncrement "view.hit" 2 ["method:get"] 1;
       StatsdIncrement "view.hit" 1 ["type:site"] 1].
Proof.
  apply (scenario_view_hit_emissions tracking_settings 1 10 12.5 empty_world);
    reflexivity.
Defined.

(** With the default settings [sample_rate] is unbound: the same scenario
    raises [NameError] at the first event and the sink receives nothing. *)
Lemma scenario_view_hit_unbound :
  (scenario_view_hit default_settings 10 12.5 empty_world).1 =
    Raise (NameError "sample_rate")
  ∧ sink (scenario_view_hit default_settings 10 12.5 empty_world).2 = [].
Proof. by vm_compute. Qed.

(** ** Celery handlers *)

(** C3, on the code.  The [task_postrun] handler passes the task's name, a
    [str], where [end] expects the tag mapping.  After [task_prerun], for
    every task name and whatever the settings, the handler stops the
    "total" span and then raises [AttributeError] in the Timer flush, at
    [tags.items()]: nothing reaches the sink, no counter is flushed, and
    the handler's own reset of the timer binding is not reached. *)
Theorem task_postrun_raises
    (cfg : Settings) (t0 t1 : float) (name : string) (w : World) :
  (task_run cfg t0 t1 name w).1 = Raise (AttributeError "str" "items")
  ∧ sink (task_run cfg t0 t1 name w).2 = sink w
  ∧ scope_timings (task_run cfg t0 t1 name w).2 = Some (length (timers w)).
Proof.
  unfold task_run, celery.start, celery.stop, mbind, M_bind.
  rewrite middleware_start_world.
  match goal with |- context [StatsdMiddleware.stop _ _ _ ?w1] =>
    set (w1' := w1) end.
  destruct (middleware_stop_steps cfg t1 (TagsStr name) w1') as [_ Hstop].
  specialize (Hstop (length (timers w)) _ _ _ eq_refl
    (list_lookup_middle _ _ _ _ eq_refl) eq_refl eq_refl).
  cbn zeta in Hstop. destruct Hstop as (Hres & Hsink & _ & Ht & _).
  rewrite timer_start_stop in Hres, Hsink.
  unfold Timer.submit in Hres, Hsink. cbn in Hres, Hsink.
  destruct (StatsdMiddleware.stop cfg t1 (TagsStr name) w1') as [res w2].
  cbn [fst snd] in *. subst res. cbn [fst snd].
  by rewrite Hsink, app_nil_r.
Qed.

(** The same at a concrete task, with the default settings. *)
Lemma task_postrun_raises_example :
  task_run default_settings 1 3 "tasks.add" empty_world =
  (Raise (AttributeError "str" "items"),
   mkWorld [Timer.mk "celery" ∅ {["total" := 2%float]}]
           (Some 0%nat)
           (Some (Counter.mk "celery" {["hit" := 1]}))
           (Some (Counter.mk "celery" {["hit" := 1]}))
           [] None false).
Proof. by vm_compute. Qed.

(** C10.  When [stop(k)] is called on a timer that has no deque under [k],
    the failing assertion has already stored an empty deque under [k]:
    the timer is not the one it was.  With that entry the dictionary of
    starts is not empty, so a flush in debug mode raises the "started but
    never stopped" [AssertionError], where the flush of the timer before
    the failed [stop] passes whenever no span is open; outside debug mode
    the flush still passes. *)
Theorem timer_failed_stop_leaves_entry
    (now r : float) (key : string) (items : list (string * string))
    (tm : Timer.t) :
  Timer.starts tm !! key = None →
  let tm' := (Timer.stop now key tm).2 in
  (Timer.stop now key tm).1 = Raise (AssertionError (Timer.stop_message key))
  ∧ Timer.starts tm' = <[key := []]> (Timer.starts tm)
  ∧ tm' ≠ tm
  ∧ Timer.data tm' = Timer.data tm
  ∧ (Timer.submit (Some r) true (TagsDict items) tm').1.1 =
      Raise (AssertionError Timer.submit_message)
  ∧ (Timer.submit (Some r) true (TagsDict items) tm).1.1 =
      (if bool_decide (Timer.starts tm = ∅) then Ret tt
       else Raise (AssertionError Timer.submit_message))
  ∧ (Timer.submit (Some r) false (TagsDict items) tm').1.1 = Ret tt.
Proof.
  intros Hk. cbn zeta. unfold Timer.stop. rewrite Hk.
  cbn [default from_option id Timer.deque_pop fst snd Timer.starts Timer.data].
  split; [done|]. split; [done|]. split.
  { intros Heq. apply (f_equal Timer.starts) in Heq. cbn in Heq.
    apply (f_equal (.!! key)) in Heq.
    by rewrite lookup_insert_eq, Hk in Heq. }
  split; [done|]. rewrite !timer_submit_bound.
  cbn [fst snd Timer.starts andb negb].
  rewrite bool_decide_eq_false_2 by apply insert_non_empty.
  split; [done|]. split; [|done].
  by destruct (bool_decide (Timer.starts tm = ∅)).
Qed.

Lemma timer_failed_stop_leaves_entry_witness :
  let tm := Timer.new debug_settings "view" in
  let tm' := (Timer.stop 5 "db" tm).2 in
  (Timer.stop 5 "db" tm).1 = Raise (AssertionError (Timer.stop_message "db"))
  ∧ Timer.starts tm' = <["db" := []]> (Timer.starts tm)
  ∧ tm' ≠ tm
  ∧ Timer.data tm' = Timer.data tm
  ∧ (Timer.submit (Some 1%float) true (TagsDict []) tm').1.1 =
      Raise (AssertionError Timer.submit_message)
  ∧ (Timer.submit (Some 1%float) true (TagsDict []) tm).1.1 =
      (if bool_decide (Timer.starts tm = ∅) then Ret tt
       else Raise (AssertionError Timer.submit_message))
  ∧ (Timer.submit (Some 1%float) false (TagsDict []) tm').1.1 = Ret tt.
Proof.
  apply (timer_failed_stop_leaves_entry 5 1 "db" [] (Timer.new debug_settings "view")).
  reflexivity.
Defined.

(** On a running scope in debug mode: a [stop] of a key that was never
    started makes the following [end] fail after the timer's events, so
    that the counters are not flushed. *)
Lemma failed_stop_breaks_end_example :
  let out :=
    run_calls debug_settings
      [CallBegin 10 "view"; CallStop 11 "db";
       CallEnd 12.5 (TagsDict [("method", "get")])] empty_world in
  out.1 = [Ret tt;
           Raise (AssertionError (Timer.stop_message "db"));
           Raise (AssertionError Timer.submit_message)]
  ∧ sink out.2 = [StatsdTiming "view.total" 2.5 ["method:get"] 1].
Proof. by vm_compute. Qed.

(** ** Clearing the scope *)

Lemma cleanup_world (w : World) :
  StatsdMiddleware.cleanup w =
  (Ret tt,
   mkWorld (timers w) None None (scope_counter_site w) (sink w) None false).
Proof. done. Qed.

Lemma clear_world (w : World) :
  celery.clear w = (Ret tt, set_timings None w).
Proof. done. Qed.

Lemma same_view_refl_no_timer (w1 w2 : World) :
  sink w1 = sink w2 → scope_timings w1 = None → scope_timings w2 = None →
  same_view w1 w2.
Proof. intros Hs H1 H2. unfold same_view. by rewrite H1, H2. Qed.

Lemma bound_view_same (a1 a2 : nat) (w1 w2 : World) :
  bound_view a1 a2 w1 w2 → same_view w1 w2.
Proof.
  intros (Hs & H1 & H2 & Htm & Hc & Hcs). unfold same_view.
  by rewrite H1, H2.
Qed.

Lemma related_bind {A B} (P : World → World → Prop)
    (m1 m2 : M A) (f1 f2 : A → M B) :
  related P m1 m2 → (∀ x, related P (f1 x) (f2 x)) →
  related P (m1 ≫= f1) (m2 ≫= f2).
Proof.
  intros Hm Hf w1 w2 HP. unfold mbind, M_bind.
  destruct (Hm w1 w2 HP) as [Hres HP'].
  destruct (m1 w1) as [[x|e] w1'], (m2 w2) as [[y|e'] w2'];
    cbn [fst snd] in *; try discriminate.
  - injection Hres as ->. by apply Hf.
  - injection Hres as ->. done.
Qed.

Lemma related_ret {A} (P : World → World → Prop) (x : A) :
  related P (mret x) (mret x).
Proof. by intros w1 w2 HP. Qed.

Lemma related_on_timer {A} (a1 a2 : nat)
    (method : Timer.t → Res A * Timer.t * list Emission) :
  related (bound_view a1 a2) (on_timer a1 method) (on_timer a2 method).
Proof.
  intros w1 w2 (Hs & H1 & H2 & (tm & Ha1 & Ha2) & Hc & Hcs).
  rewrite !(on_timer_lookup _ tm) by done. cbn [fst snd].
  split; [done|]. unfold bound_view. cbn.
  rewrite Hs, !list_lookup_insert_eq by (by eapply lookup_lt_Some).
  eauto 10.
Qed.

Lemma related_counter_submit cfg (a1 a2 : nat) (tags : PyTags)
    (attr : World → option Counter.t) :
  (∀ w1 w2, bound_view a1 a2 w1 w2 → attr w1 = attr w2) →
  (∀ w s, attr (set_sink s w) = attr w) →
  related (bound_view a1 a2)
          (counter_submit cfg attr tags) (counter_submit cfg attr tags).
Proof.
  intros Hattr Hset w1 w2 Hv.
  pose proof (Hattr _ _ Hv) as Ha.
  destruct Hv as (Hs & H1 & H2 & Htm & Hc & Hcs).
  unfold counter_submit. rewrite <- Ha. destruct (attr w1) as [c|].
  - destruct (Counter.submit (sample_rate cfg) tags c) as [res out].
    cbn [fst snd]. split; [done|]. unfold bound_view. cbn.
    by rewrite Hs.
  - done.
Qed.

(** [end] on two worlds that look the same. *)
Lemma same_view_end cfg (now : float) (tags : PyTags) (w1 w2 : World) :
  same_view w1 w2 →
  (StatsdMiddleware.stop cfg now tags w1).1 =
    (StatsdMiddleware.stop cfg now tags w2).1
  ∧ same_view (StatsdMiddleware.stop cfg now tags w1).2
              (StatsdMiddleware.stop cfg now tags w2).2.
Proof.
  intros [Hs Hv].
  pose proof (proj1 (middleware_stop_steps cfg now tags w1)) as E1.
  pose proof (proj1 (middleware_stop_steps cfg now tags w2)) as E2.
  destruct (scope_timings w1) as [a1|] eqn:H1,
           (scope_timings w2) as [a2|] eqn:H2; try done.
  - rewrite E1, E2. destruct Hv as (Htm & Hc & Hcs).
    assert (Hb : bound_view a1 a2 w1 w2) by done.
    assert (Hrel : related (bound_view a1 a2)
      (timer_stop a1 now "total";; timer_submit cfg a1 tags;;
       counter_submit cfg scope_counter tags;;
       counter_submit cfg scope_counter_site (TagsDict [("type", "site")]))
      (timer_stop a2 now "total";; timer_submit cfg a2 tags;;
       counter_submit cfg scope_counter tags;;
       counter_submit cfg scope_counter_site (TagsDict [("type", "site")]))).
    { apply related_bind; [apply related_on_timer|]. intros _.
      apply related_bind; [apply related_on_timer|]. intros _.
      apply related_bind; [|intros _];
        (apply related_counter_submit; [|done]);
        by intros ?? (?&?&?&?&?&?). }
    destruct (Hrel w1 w2 Hb) as [Hres Hb']. split; [done|].
    by eapply bound_view_same.
  - rewrite E1, E2. cbn. split; [done|]. by apply same_view_refl_no_timer.
Qed.

Lemma same_view_begin cfg (now : float) (prefix : string) (w1 w2 : World) :
  sink w1 = sink w2 →
  (StatsdMiddleware.start cfg now prefix w1).1 =
    (StatsdMiddleware.start cfg now prefix w2).1
  ∧ same_view (StatsdMiddleware.start cfg now prefix w1).2
              (StatsdMiddleware.start cfg now prefix w2).2.
Proof.
  intros Hs. rewrite !middleware_start_world. split; [done|].
  unfold same_view. cbn [fst snd sink scope_timings timers scope_counter
    scope_counter_site].
  rewrite !list_lookup_middle by done. eauto 10.
Qed.

(** The timer helpers [start(key)] and [stop(key)] on two worlds that look
    the same. *)
Lemma same_view_timer_call {A} (w1 w2 : World)
    (m : nat → M A) (dflt : A) :
  (∀ a1 a2, related (bound_view a1 a2) (m a1) (m a2)) →
  same_view w1 w2 →
  let run := λ w : World,
    (t ← gets scope_timings;
     match t with Some a => m a | None => mret dflt end) w in
  (run w1).1 = (run w2).1 ∧ same_view (run w1).2 (run w2).2.
Proof.
  intros Hm [Hs Hv]. cbn zeta. unfold mbind, M_bind, gets.
  destruct (scope_timings w1) as [a1|] eqn:H1,
           (scope_timings w2) as [a2|] eqn:H2; try done.
  - destruct Hv as (Htm & Hc & Hcs).
    destruct (Hm a1 a2 w1 w2) as [Hres Hb]; [done|].
    split; [done|]. by eapply bound_view_same.
  - cbn. split; [done|]. by apply same_view_refl_no_timer.
Qed.

Lemma same_view_set_counter (f : Counter.t → Counter.t) (w1 w2 : World) :
  same_view w1 w2 →
  same_view (set_counter (f <$> scope_counter w1) w1)
            (set_counter (f <$> scope_counter w2) w2).
Proof.
  intros [Hs Hv]. unfold same_view in *. cbn.
  destruct (scope_timings w1), (scope_timings w2); try done.
  destruct Hv as (Htm & -> & Hcs). done.
Qed.

(** Every entry point, called on two worlds that look the same, gives the
    same outcome and leaves worlds that look the same. *)
Lemma same_view_call cfg (c : Call) (w1 w2 : World) :
  same_view w1 w2 →
  (call cfg c w1).1 = (call cfg c w2).1
  ∧ same_view (call cfg c w1).2 (call cfg c w2).2.
Proof.
  intros Hv. pose proof Hv as [Hs _].
  destruct c as [|now prefix|now tags| |now key|now key|key v|key v
                |now|now [name|]|]; cbn [call].
  - split; [done|]. by apply same_view_refl_no_timer.
  - by apply same_view_begin.
  - by apply same_view_end.
  - rewrite !cleanup_world. split; [done|]. by apply same_view_refl_no_timer.
  - apply (same_view_timer_call w1 w2 (λ a, timer_start a now key) tt);
      [|done]. intros a1 a2. apply related_on_timer.
  - unfold stop.
    assert (Hrun : ∀ w,
      ((t ← gets scope_timings;
        match t with
        | Some a => d ← timer_stop a now key; mret (Some d)
        | None => mret None
        end);; mret tt) w =
      (t ← gets scope_timings;
       match t with
       | Some a => timer_stop a now key;; mret tt
       | None => mret tt
       end) w).
    { intros w. unfold mbind, M_bind, gets, mret, M_ret.
      destruct (scope_timings w) as [a|]; [|done].
      by destruct (timer_stop a now key w) as [[d|e] w']. }
    rewrite !Hrun.
    apply (same_view_timer_call w1 w2
             (λ a, timer_stop a now key;; mret tt) tt); [|done].
    intros a1 a2. apply related_bind; [apply related_on_timer|].
    intros _. apply related_ret.
  - rewrite !incr_world. split; [done|]. by apply same_view_set_counter.
  - rewrite !decr_world. split; [done|]. by apply same_view_set_counter.
  - by apply same_view_begin.
  - unfold celery.stop, mbind, M_bind.
    destruct (same_view_end cfg now (TagsStr name) w1 w2 Hv) as [Hres Hv'].
    destruct (StatsdMiddleware.stop cfg now (TagsStr name) w1) as [[[]|e1] w1'],
             (StatsdMiddleware.stop cfg now (TagsStr name) w2) as [[[]|e2] w2'];
      cbn [fst snd] in *; try discriminate.
    + split; [done|]. destruct Hv' as [Hs' _].
      by apply same_view_refl_no_timer.
    + done.
  - done.
  - rewrite !clear_world. split; [done|]. by apply same_view_refl_no_timer.
Qed.

Lemma same_view_run_calls cfg (cs : list Call) (w1 w2 : World) :
  same_view w1 w2 →
  (run_calls cfg cs w1).1 = (run_calls cfg cs w2).1
  ∧ sink (run_calls cfg cs w1).2 = sink (run_calls cfg cs w2).2.
Proof.
  revert w1 w2. induction cs as [|c cs IH]; intros w1 w2 Hv.
  - split; [done|]. by destruct Hv.
  - cbn [run_calls].
    destruct (same_view_call cfg c w1 w2 Hv) as [Hres Hv'].
    destruct (call cfg c w1) as [r1 w1'], (call cfg c w2) as [r2 w2'].
    cbn [fst snd] in *. subst r2.
    destruct (IH w1' w2' Hv') as [Hress Hsink].
    destruct (run_calls cfg cs w1') as [rs1 w1''],
             (run_calls cfg cs w2') as [rs2 w2''].
    cbn [fst snd] in *. by subst rs2.
Qed.

(** C9, as the code has it.  [cleanup()] returns normally, sends nothing,
    and unbinds the timer and the primary counter; the celery failure
    handler [clear()] returns normally, sends nothing and unbinds the
    timer.  After either, whatever entry points the thread calls next,
    every outcome and every event sent is that of a thread that had
    accumulated nothing: [end] is gated on the timer binding, and [begin]
    binds a new timer and two new counters. *)
Theorem cleanup_discards (cfg : Settings) (w : World) (cs : list Call) :
  let cleaned := (StatsdMiddleware.cleanup w).2 in
  let cleared := (celery.clear w).2 in
  let blank := set_sink (sink w) empty_world in
  (StatsdMiddleware.cleanup w).1 = Ret tt
  ∧ sink cleaned = sink w
  ∧ scope_timings cleaned = None
  ∧ scope_counter cleaned = None
  ∧ (celery.clear w).1 = Ret tt
  ∧ sink cleared = sink w
  ∧ scope_timings cleared = None
  ∧ (run_calls cfg cs cleaned).1 = (run_calls cfg cs blank).1
  ∧ sink (run_calls cfg cs cleaned).2 = sink (run_calls cfg cs blank).2
  ∧ (run_calls cfg cs cleared).1 = (run_calls cfg cs blank).1
  ∧ sink (run_calls cfg cs cleared).2 = sink (run_calls cfg cs blank).2.
Proof.
  cbn zeta. rewrite cleanup_world, clear_world. cbn [fst snd].
  do 7 (split; [done|]).
  assert (Hcleaned : same_view
    (mkWorld (timers w) None None (scope_counter_site w) (sink w) None false)
    (set_sink (sink w) empty_world))
    by (by apply same_view_refl_no_timer).
  assert (Hcleared : same_view (set_timings None w)
                               (set_sink (sink w) empty_world))
    by (by apply same_view_refl_no_timer).
  destruct (same_view_run_calls cfg cs _ _ Hcleaned) as [? ?].
  destruct (same_view_run_calls cfg cs _ _ Hcleared) as [? ?].
  done.
Qed.

(** After [begin] and [cleanup] the site counter is still bound, with its
    hit; after [task_prerun] and the failure handler both counters are.
    So not every binding of the scope becomes absent. *)
Lemma cleanup_keeps_site_counter :
  let cleaned :=
    (run_calls tracking_settings [CallBegin 10 "view"; CallCleanup]
               empty_world).2 in
  let cleared :=
    (run_calls tracking_settings [CallTaskPrerun 10; CallTaskFailure]
               empty_world).2 in
  scope_counter_site cleaned = Some (Counter.mk "view" {["hit" := 1]})
  ∧ scope_counter cleared = Some (Counter.mk "celery" {["hit" := 1]})
  ∧ scope_counter_site cleared = Some (Counter.mk "celery" {["hit" := 1]})
  ∧ ¬ (scope_timings cleaned = None ∧ scope_counter cleaned = None
       ∧ scope_counter_site cleaned = None)
  ∧ ¬ (scope_timings cleared = None ∧ scope_counter cleared = None
       ∧ scope_counter_site cleared = None).
Proof.
  cbn zeta.
  assert (H1 : scope_counter_site
      (run_calls tracking_settings [CallBegin 10 "view"; CallCleanup]
                 empty_world).2 = Some (Counter.mk "view" {["hit" := 1]}))
    by (by vm_compute).
  assert (H2 : scope_counter
      (run_calls tracking_settings [CallTaskPrerun 10; CallTaskFailure]
                 empty_world).2 = Some (Counter.mk "celery" {["hit" := 1]}))
    by (by vm_compute).
  assert (H3 : scope_counter_site
      (run_calls tracking_settings [CallTaskPrerun 10; CallTaskFailure]
                 empty_world).2 = Some (Counter.mk "celery" {["hit" := 1]}))
    by (by vm_compute).
  rewrite H1, H2, H3. repeat split; try done; by intros (_ & _ & [=]).
Qed.

(** ** The span helper *)

(** The [with] block of [with_(key)], in terms of the calls on the bound
    timer. *)
Lemma with_span_unfold {A} (key : string) (t_in t_out : float)
    (body : M A) (w : World) :
  match scope_timings w with
  | None =>
      with_ key w = (Ret DummyWith, w)
      ∧ (∀ now w', cm_enter DummyWith now w' = (Ret tt, w')
                   ∧ cm_exit DummyWith now w' = (Ret tt, w'))
      ∧ py_with (with_ key) t_in t_out body w = body w
  | Some a =>
      with_ key w = (Ret (WithTimer a key), w)
      ∧ (∀ now, cm_enter (WithTimer a key) now = timer_start a now key)
      ∧ (∀ now w', (cm_exit (WithTimer a key) now w').1 =
                     match (timer_stop a now key w').1 with
                     | Ret _ => Ret tt
                     | Raise e => Raise e
                     end
                   ∧ (cm_exit (WithTimer a key) now w').2 =
                     (timer_stop a now key w').2)
      ∧ py_with (with_ key) t_in t_out body w =
          match timer_start a t_in key w with
          | (Raise e, w1) => (Raise e, w1)
          | (Ret _, w1) =>
              match timer_stop a t_out key (body w1).2 with
              | (Raise e, w3) => (Raise e, w3)
              | (Ret _, w3) => ((body w1).1, w3)
              end
          end
  end.
Proof.
  unfold py_with, with_, mbind, M_bind, gets.
  destruct (scope_timings w) as [a|] eqn:Ht; cbn [mret M_ret].
  - split; [done|]. split; [done|]. split.
    + intros now w'. cbn [cm_exit]. unfold mbind, M_bind.
      by destruct (timer_stop a now key w') as [[d|e] w''].
    + cbn [cm_enter cm_exit].
      destruct (timer_start a t_in key w) as [[[]|e] w1]; [|done].
      destruct (body w1) as [res w2]. cbn [fst snd]. unfold mbind, M_bind.
      by destruct (timer_stop a t_out key w2) as [[d|e] w3].
  - split; [done|]. split; [done|]. cbn. by destruct (body w).
Qed.

(** The span is recorded on every exit path: if the body leaves the
    captured timer as it found it, then after the block the timer holds
    the span just closed, and the outcome is the body's, an exception
    included. *)
Lemma with_span_records {A} (key : string) (t_in t_out : float)
    (body : M A) (w : World) (a : nat) (tm : Timer.t) :
  scope_timings w = Some a →
  timers w !! a = Some tm →
  (∀ w1, timers (body w1).2 !! a = timers w1 !! a) →
  (py_with (with_ key) t_in t_out body w).1 = (body (timer_start a t_in key w).2).1
  ∧ timers (py_with (with_ key) t_in t_out body w).2 !! a =
      Some (Timer.stop t_out key (Timer.start t_in key tm)).2.
Proof.
  intros Ht Ha Hbody. pose proof (with_span_unfold key t_in t_out body w) as H.
  rewrite Ht in H. destruct H as (_ & _ & _ & ->).
  unfold timer_start. rewrite !(on_timer_lookup a tm) by done.
  cbn [fst snd]. rewrite !app_nil_r.
  set (w1 := set_sink _ _).
  assert (Hw1 : timers w1 !! a = Some (Timer.start t_in key tm)).
  { unfold w1. cbn. apply list_lookup_insert_eq. by eapply lookup_lt_Some. }
  unfold timer_stop. rewrite (on_timer_lookup a (Timer.start t_in key tm))
    by (by rewrite Hbody).
  rewrite timer_start_stop. cbn [fst snd]. split; [done|].
  cbn. apply list_lookup_insert_eq. eapply lookup_lt_Some. by rewrite Hbody.
Qed.

(** A body that raises at once: the exception reaches the caller and the
    span is closed and counted. *)
Lemma with_span_error_exit_example :
  let w := (StatsdMiddleware.start tracking_settings 10 "view" empty_world).2 in
  let out := py_with (with_ "db") 11 12 (raise (Exception "boom")) w in
  out.1 = (Raise (Exception "boom") : Res unit)
  ∧ (Timer.data <$> timers out.2 !! 0%nat) = Some {["db" := 1%float]}
  ∧ (Timer.starts <$> timers out.2 !! 0%nat) = Some {["total" := [10%float]]}.
Proof. by vm_compute. Qed.

(** ** Flushing twice *)

(** [Counter.submit] leaves the counter bound to the attribute as it is. *)
Lemma counter_submit_keeps_counter cfg (tags : PyTags) (w : World) :
  scope_counter (counter_submit cfg scope_counter tags w).2 = scope_counter w
  ∧ scope_counter_site
      (counter_submit cfg scope_counter_site tags w).2 = scope_counter_site w.
Proof.
  unfold counter_submit. split.
  - destruct (scope_counter w) as [c|] eqn:Hc; [|done].
    by destruct (Counter.submit (sample_rate cfg) tags c).
  - destruct (scope_counter_site w) as [c|] eqn:Hc; [|done].
    by destruct (Counter.submit (sample_rate cfg) tags c).
Qed.

(** A second flush of a counter sends again what the first one sent. *)
Lemma counter_submit_twice cfg (tags : PyTags) (w : World) :
  let w1 := (counter_submit cfg scope_counter tags w).2 in
  let w2 := (counter_submit cfg scope_counter tags w1).2 in
  ∃ out, sink w1 = sink w ++ out ∧ sink w2 = sink w ++ out ++ out.
Proof.
  cbn zeta. unfold counter_submit.
  destruct (scope_counter w) as [c|] eqn:Hc.
  - destruct (Counter.submit (sample_rate cfg) tags c) as [res out] eqn:Hsub.
    exists out. cbn. rewrite Hc, Hsub. cbn. by rewrite <- (assoc_L (++)).
  - exists []. cbn. rewrite Hc. cbn. by rewrite !app_nil_r.
Qed.

(** C1, on the code.  A counter holding one hit is flushed: the event is
    sent, and the counter still holds the hit, so that its key mapping is
    not empty and a second flush with no call in between sends the event
    again.  Through the entry points: after [begin] and [end], reopening
    the "total" span and calling [end] once more sends both counters a
    second time. *)
Theorem counter_flush_keeps_entries :
  let c := Counter.increment "hit" 1 (Counter.new tracking_settings "view") in
  let tags := TagsDict [("method", "get")] in
  let flush := counter_submit tracking_settings scope_counter tags in
  let w1 := (flush (set_counter (Some c) empty_world)).2 in
  let w2 := (flush w1).2 in
  Counter.data c = {["hit" := 1]}
  ∧ scope_counter w1 = Some c
  ∧ sink w1 = [StatsdIncrement "view.hit" 1 ["method:get"] 1]
  ∧ sink w2 = [StatsdIncrement "view.hit" 1 ["method:get"] 1;
               StatsdIncrement "view.hit" 1 ["method:get"] 1]
  ∧ sink (run_calls tracking_settings
            [CallBegin 10 "view"; CallEnd 12.5 tags;
             CallStart 13 "total"; CallEnd 14 tags] empty_world).2 =
      [StatsdTiming "view.total" 2.5 ["method:get"] 1;
       StatsdIncrement "view.hit" 1 ["method:get"] 1;
       StatsdIncrement "view.hit" 1 ["type:site"] 1;
       StatsdTiming "view.total" 1 ["method:get"] 1;
       StatsdIncrement "view.hit" 1 ["method:get"] 1;
       StatsdIncrement "view.hit" 1 ["type:site"] 1].
Proof. cbn zeta. repeat split; by vm_compute. Qed.

(** ** Instances *)

Lemma timer_stop_without_start_witness :
  let tm := Timer.start 10 "total" (Timer.new tracking_settings "view") in
  (Timer.stop 11 "db" tm).1 = Raise (AssertionError (Timer.stop_message "db"))
  ∧ Timer.data (Timer.stop 11 "db" tm).2 = Timer.data tm
  ∧ (stop 11 "db" begun_world).1 =
      Raise (AssertionError (Timer.stop_message "db"))
  ∧ sink (stop 11 "db" begun_world).2 = sink begun_world
  ∧ (Timer.data <$> timers (stop 11 "db" begun_world).2 !! 0%nat) =
      Some (Timer.data tm).
Proof.
  apply (timer_stop_without_start 11 "db"
           (Timer.start 10 "total" (Timer.new tracking_settings "view"))
           begun_world 0); reflexivity.
Defined.

Lemma middleware_stop_order_witness :
  let tags := TagsDict [("method", "get")] in
  StatsdMiddleware.stop tracking_settings 12.5 tags empty_world =
    (Ret tt, empty_world)
  ∧ (StatsdMiddleware.stop tracking_settings 12.5 tags begun_world).1 = Ret tt
  ∧ sink (StatsdMiddleware.stop tracking_settings 12.5 tags begun_world).2 =
      [StatsdTiming "view.total" 2.5 ["method:get"] 1;
       StatsdIncrement "view.hit" 1 ["method:get"] 1;
       StatsdIncrement "view.hit" 1 ["type:site"] 1].
Proof.
  cbn zeta. split.
  - exact (proj1 (middleware_stop_order tracking_settings 12.5
                    (TagsDict [("method", "get")]) empty_world)).
  - destruct (proj2 (middleware_stop_order tracking_settings 12.5
                       (TagsDict [("method", "get")]) begun_world)
                0%nat _ _ _ eq_refl eq_refl eq_refl eq_refl)
      as (Hres & Hsink & _).
    split; [rewrite Hres | rewrite Hsink]; reflexivity.
Defined.

(** * Further properties of the code *)

(** ** Runs of timer calls *)

Lemma timer_run_app (ops1 ops2 : list TimerOp) (tm : Timer.t) :
  timer_run (ops1 ++ ops2) tm =
  match timer_run ops1 tm with
  | (Ret ds, tm') =>
      match timer_run ops2 tm' with
      | (Ret ds', tm'') => (Ret (ds ++ ds'), tm'')
      | (Raise e, tm'') => (Raise e, tm'')
      end
  | (Raise e, tm') => (Raise e, tm')
  end.
Proof.
  revert tm. induction ops1 as [|[now k|now k] ops1 IH]; intros tm.
  - cbn. by destruct (timer_run ops2 tm) as [[ds|e] tm'].
  - cbn [app timer_run]. apply IH.
  - cbn [app timer_run].
    destruct (Timer.stop now k tm) as [[d|e] tm1]; [|done].
    rewrite IH. destruct (timer_run ops1 tm1) as [[ds|e] tm2]; [|done].
    by destruct (timer_run ops2 tm2) as [[ds'|e] tm3].
Qed.

(** [stop] on a key whose deque ends with the reading [s]. *)
Lemma timer_stop_snoc (now s : float) (q : list float) (key : string)
    (tm : Timer.t) :
  default [] (Timer.starts tm !! key) = q ++ [s] →
  ∃ tm', Timer.stop now key tm = (Ret (now - s)%float, tm')
    ∧ Timer.prefix tm' = Timer.prefix tm
    ∧ default [] (Timer.starts tm' !! key) = q
    ∧ Timer.data tm' =
        <[key := (default 0 (Timer.data tm !! key) + (now - s))%float]>
          (Timer.data tm)
    ∧ (∀ k, k ≠ key → Timer.starts tm' !! k = Timer.starts tm !! k).
Proof.
  intros Hq. unfold Timer.stop. rewrite Hq, deque_pop_snoc.
  eexists. split; [done|]. cbn [Timer.prefix Timer.starts Timer.data].
  split; [done|]. split; [|split; [done|]].
  - destruct q; cbn; [by rewrite lookup_delete_eq|by rewrite lookup_insert_eq].
  - intros k Hk.
    destruct q; [by rewrite lookup_delete_ne|by rewrite lookup_insert_ne].
Qed.

(** Starts only: the readings are appended to the deque of the key, in
    call order, and nothing else changes. *)
Lemma timer_run_starts (key : string) (ts : list float) (tm : Timer.t) :
  ∃ tm', timer_run ((λ t, TStart t key) <$> ts) tm = (Ret [], tm')
    ∧ default [] (Timer.starts tm' !! key) =
        default [] (Timer.starts tm !! key) ++ ts
    ∧ Timer.data tm' = Timer.data tm.
Proof.
  revert tm. induction ts as [|t ts IH]; intros tm.
  - exists tm. by rewrite app_nil_r.
  - cbn [fmap list_fmap timer_run].
    destruct (IH (Timer.start t key tm)) as (tm' & Hrun & Hq & Hd).
    exists tm'. split; [done|]. split; [|done].
    by rewrite Hq, timer_start_deque, <- (assoc_L (++)).
Qed.

(** Stops only, on a deque that ends with the readings [rev ss]: each stop
    pops the latest reading left. *)
Lemma timer_run_stops (key : string) (us ss q : list float) (tm : Timer.t) :
  default [] (Timer.starts tm !! key) = q ++ rev ss →
  length ss = length us →
  ∃ tm', timer_run ((λ u, TStop u key) <$> us) tm =
           (Ret (zip_with (λ u s, (u - s)%float) us ss), tm')
    ∧ default [] (Timer.starts tm' !! key) = q
    ∧ default 0%float (Timer.data tm' !! key) =
        add_durations (default 0%float (Timer.data tm !! key))
                      (zip_with (λ u s, (u - s)%float) us ss).
Proof.
  revert ss tm. induction us as [|u us IH]; intros [|s ss] tm Hq Hlen;
    try discriminate.
  - exists tm. cbn in *. by rewrite app_nil_r in Hq.
  - cbn [rev] in Hq. rewrite (assoc_L (++)) in Hq.
    destruct (timer_stop_snoc u s _ key tm Hq)
      as (tm1 & Hstop & _ & Hq1 & Hd1 & _).
    destruct (IH ss tm1 Hq1) as (tm' & Hrun & Hq' & Hd').
    { by injection Hlen. }
    exists tm'. cbn [fmap list_fmap timer_run zip_with].
    rewrite Hstop. change (list_fmap _ _ ?f ?l) with (f <$> l).
    rewrite Hrun. split; [done|]. split; [done|].
    rewrite Hd', Hd1, lookup_insert_eq. done.
Qed.

(** X1.  Spans of one key nested to any depth: after [n] starts at the
    readings [ts] and [n] stops at the readings [us], every call has
    succeeded, the k-th stop returns its reading minus the k-th latest
    start, the deque of the key is what it was, and the total has grown by
    the returned durations, added in call order. *)
Theorem timer_nested_any_depth
    (key : string) (ts us : list float) (tm : Timer.t) :
  length us = length ts →
  let durations := zip_with (λ u s, (u - s)%float) us (rev ts) in
  let out := timer_run (nested_ops key ts us) tm in
  out.1 = Ret durations
  ∧ default [] (Timer.starts out.2 !! key) =
      default [] (Timer.starts tm !! key)
  ∧ default 0%float (Timer.data out.2 !! key) =
      add_durations (default 0%float (Timer.data tm !! key)) durations.
Proof.
  intros Hlen. cbn zeta. unfold nested_ops. rewrite timer_run_app.
  destruct (timer_run_starts key ts tm) as (tm1 & -> & Hq1 & Hd1).
  destruct (timer_run_stops key us (rev ts)
              (default [] (Timer.starts tm !! key)) tm1)
    as (tm2 & -> & Hq2 & Hd2).
  { by rewrite rev_involutive. }
  { by rewrite length_rev. }
  cbn [fst snd app]. by rewrite Hq2, Hd2, Hd1.
Qed.

Lemma timer_nested_any_depth_witness :
  let tm := Timer.new tracking_settings "view" in
  let durations :=
    zip_with (λ u s, (u - s)%float) [4; 5; 7]%float (rev [1; 2; 3]%float) in
  let out := timer_run (nested_ops "db" [1; 2; 3]%float [4; 5; 7]%float) tm in
  out.1 = Ret durations
  ∧ default [] (Timer.starts out.2 !! "db") =
      default [] (Timer.starts tm !! "db")
  ∧ default 0%float (Timer.data out.2 !! "db") =
      add_durations (default 0%float (Timer.data tm !! "db")) durations.
Proof.
  apply (timer_nested_any_depth "db" [1; 2; 3]%float [4; 5; 7]%float
           (Timer.new tracking_settings "view")).
  reflexivity.
Defined.

(** X2.  Spans of one key run one after the other: every call succeeds,
    each stop returns its reading minus the start just before it, the
    deque of the key is what it was, and the total has grown by the
    durations, added in call order. *)
Theorem timer_sequential_spans
    (key : string) (spans : list (float * float)) (tm : Timer.t) :
  let durations := (λ span, (span.2 - span.1)%float) <$> spans in
  let out := timer_run (sequential_ops key spans) tm in
  out.1 = Ret durations
  ∧ default [] (Timer.starts out.2 !! key) =
      default [] (Timer.starts tm !! key)
  ∧ default 0%float (Timer.data out.2 !! key) =
      add_durations (default 0%float (Timer.data tm !! key)) durations.
Proof.
  cbn zeta. revert tm.
  induction spans as [|[t u] spans IH]; intros tm; [done|].
  unfold sequential_ops in *. cbn [mbind list_bind app fst snd timer_run].
  change (list_bind _ _ ?f ?l) with (l ≫= f).
  rewrite timer_start_stop.
  match goal with |- context [timer_run _ ?tm1] => set (tm' := tm1) end.
  destruct (IH tm') as (Hres & Hq & Hd).
  destruct (timer_run _ tm') as [[ds|e] tm''] eqn:Hrun;
    cbn [fst snd] in *; [|done].
  injection Hres as ->. split; [done|]. rewrite Hq, Hd.
  unfold tm'. cbn [Timer.starts Timer.data fmap list_fmap add_durations
    fold_left fst snd].
  rewrite lookup_insert_eq. split; [|done].
  destruct (Timer.starts tm !! key) as [[|x q]|]; cbn;
    by rewrite ?lookup_delete_eq, ?lookup_insert_eq.
Qed.

(** X3.  Calls on other keys leave a key alone: after any run of timer
    calls none of which names [key], succeeded or stopped by an exception,
    the deque and the total of [key] are what they were. *)
Theorem timer_keys_independent
    (key : string) (ops : list TimerOp) (tm : Timer.t) :
  Forall (λ op, timer_op_key op ≠ key) ops →
  Timer.starts (timer_run ops tm).2 !! key = Timer.starts tm !! key
  ∧ Timer.data (timer_run ops tm).2 !! key = Timer.data tm !! key.
Proof.
  revert tm. induction ops as [|[now k|now k] ops IH]; intros tm Hall; [done|..];
    apply Forall_cons in Hall as [Hk Hall]; cbn in Hk; cbn [timer_run].
  - destruct (IH (Timer.start now k tm) Hall) as [-> ->]. cbn.
    by rewrite lookup_insert_ne.
  - assert (Hstop : Timer.starts (Timer.stop now k tm).2 !! key
                      = Timer.starts tm !! key
                    ∧ Timer.data (Timer.stop now k tm).2 !! key
                      = Timer.data tm !! key).
    { unfold Timer.stop.
      destruct (Timer.deque_pop _) as [[s [|x rest]]|]; cbn;
        by rewrite ?lookup_insert_ne, ?lookup_delete_ne. }
    destruct (Timer.stop now k tm) as [[d|e] tm1]; cbn [fst snd] in *; [|done].
    destruct (IH tm1 Hall) as [Hs Hd].
    destruct (timer_run ops tm1) as [[ds|e] tm2]; cbn [fst snd] in *;
      by rewrite Hs, Hd.
Qed.

Lemma timer_keys_independent_witness :
  let tm := Timer.start 1 "db" (Timer.new tracking_settings "view") in
  let ops := [TStart 2 "cache"; TStop 3 "cache"; TStop 4 "render"] in
  Timer.starts (timer_run ops tm).2 !! "db" = Timer.starts tm !! "db"
  ∧ Timer.data (timer_run ops tm).2 !! "db" = Timer.data tm !! "db".
Proof.
  apply (timer_keys_independent "db"
           [TStart 2 "cache"; TStop 3 "cache"; TStop 4 "render"]
           (Timer.start 1 "db" (Timer.new tracking_settings "view"))).
  repeat constructor; discriminate.
Defined.

Lemma no_empty_deque_start (now : float) (key : string) (tm : Timer.t) :
  no_empty_deque tm → no_empty_deque (Timer.start now key tm).
Proof.
  intros Hinv. unfold no_empty_deque, Timer.start. cbn.
  apply map_Forall_insert_2; [|done]. by destruct (default [] _).
Qed.

Lemma no_empty_deque_stop (now d : float) (key : string) (tm tm' : Timer.t) :
  no_empty_deque tm → Timer.stop now key tm = (Ret d, tm') →
  no_empty_deque tm'.
Proof.
  intros Hinv. unfold Timer.stop.
  destruct (Timer.deque_pop _) as [[s [|x rest]]|]; intros [= <- <-];
    unfold no_empty_deque; cbn.
  - by apply map_Forall_delete.
  - by apply map_Forall_insert_2.
Qed.

(** X4.  As long as no [stop] fails, the starts dictionary never holds an
    empty deque: on a timer built from a new one by any run of calls that
    all succeeded, the dictionary is empty exactly when every span has
    been closed, so the debug-mode check of the flush fails only for a span
    really left open. *)
Theorem timer_run_no_empty_deque (ops : list TimerOp) (tm : Timer.t) :
  no_empty_deque tm →
  is_raise (timer_run ops tm).1 = false →
  no_empty_deque (timer_run ops tm).2
  ∧ (Timer.starts (timer_run ops tm).2 = ∅
     ↔ ∀ k, default [] (Timer.starts (timer_run ops tm).2 !! k) = []).
Proof.
  intros Hinv Hok.
  assert (Hafter : no_empty_deque (timer_run ops tm).2).
  { revert tm Hinv Hok.
    induction ops as [|[now k|now k] ops IH]; intros tm Hinv Hok; [done|..];
      cbn [timer_run] in *.
    - apply IH; [by apply no_empty_deque_start|done].
    - destruct (Timer.stop now k tm) as [[d|e] tm1] eqn:Hstop; [|done].
      specialize (IH tm1 (no_empty_deque_stop _ _ _ _ _ Hinv Hstop)).
      destruct (timer_run ops tm1) as [[ds|e] tm2]; [|done]. by apply IH. }
  split; [done|]. split.
  - intros -> k. by rewrite lookup_empty.
  - intros Hall. apply map_empty. intros k.
    destruct (Timer.starts _ !! k) as [q|] eqn:Hk; [|done].
    specialize (Hall k). rewrite Hk in Hall. cbn in Hall. subst q.
    by destruct (Hafter k [] Hk).
Qed.

Lemma timer_run_no_empty_deque_witness :
  let tm := Timer.new tracking_settings "view" in
  let ops := [TStart 1 "db"; TStart 2 "cache"; TStop 3 "cache"] in
  no_empty_deque (timer_run ops tm).2
  ∧ (Timer.starts (timer_run ops tm).2 = ∅
     ↔ ∀ k, default [] (Timer.starts (timer_run ops tm).2 !! k) = []).
Proof.
  apply (timer_run_no_empty_deque
           [TStart 1 "db"; TStart 2 "cache"; TStop 3 "cache"]
           (Timer.new tracking_settings "view")).
  - apply map_Forall_empty.
  - reflexivity.
Defined.

(** ** Flushes *)

(** X5.  A Timer flush with [sample_rate] bound sends, for every key that
    has a total, exactly one timing event carrying it, a zero total
    included, and nothing under any other key; afterwards the totals are
    empty and the open spans untouched.  The debug-mode check runs after
    the events have been sent: with a span left open the flush raises, but
    only once every total has been sent and dropped. *)
Theorem timer_flush_sends_every_total
    (r : float) (debug : bool) (items : list (string * string))
    (key : string) (tm : Timer.t) :
  let out := Timer.submit (Some r) debug (TagsDict items) tm in
  let name := Timer.prefix tm +:+ "." +:+ key in
  emitted_as name out.2 =
    match Timer.data tm !! key with
    | Some v => [StatsdTiming name v (tag_strings items) r]
    | None => []
    end
  ∧ length out.2 = size (Timer.data tm)
  ∧ Timer.data out.1.2 = ∅
  ∧ Timer.starts out.1.2 = Timer.starts tm
  ∧ out.1.1 =
      (if debug && negb (bool_decide (Timer.starts tm = ∅))
       then Raise (AssertionError Timer.submit_message) else Ret tt).
Proof.
  cbn zeta. rewrite timer_submit_bound. cbn [fst snd Timer.data Timer.starts].
  split; [|split; [|done]].
  - unfold emitted_as. rewrite filter_fmap_comp.
    rewrite (list_filter_iff _ (λ kv : string * float, kv.1 = key)).
    2:{ intros [k v]. cbn. split; [apply metric_name_inj | by intros ->]. }
    rewrite map_items_of_key. by destruct (Timer.data tm !! key).
  - by rewrite length_fmap, length_map_to_list.
Qed.

(** X6.  A Counter flush with [sample_rate] unbound sends nothing.  It
    returns normally when every value held is zero (an empty counter
    included) and raises [NameError] as soon as one is not. *)
Theorem counter_flush_unbound
    (items : list (string * string)) (c : Counter.t) :
  Counter.submit None (TagsDict items) c =
  (if decide (map_Forall (λ _ v, v = 0) (Counter.data c)) then Ret tt
   else Raise (NameError "sample_rate"), []).
Proof.
  unfold Counter.submit. cbn [format_tags].
  rewrite counter_submit_loop_unbound. f_equal.
  assert (Hiff : Forall (λ kv : string * Z, kv.2 = 0)
                        (map_to_list (Counter.data c))
                 ↔ map_Forall (λ _ v, v = 0) (Counter.data c)).
  { rewrite map_Forall_to_list, !Forall_forall.
    split; intros H [k v] Hkv; apply (H (k, v) Hkv). }
  destruct (decide (Forall _ _)), (decide (map_Forall _ _)); tauto.
Qed.

(** X7.  A Timer flush with [sample_rate] unbound and at least one total:
    [NameError] is raised and nothing is sent, but one total has already
    been popped, so every failed flush loses one entry; the other totals
    and the open spans are kept. *)
Theorem timer_flush_unbound_drops_one
    (debug : bool) (items : list (string * string)) (tm : Timer.t) :
  Timer.data tm ≠ ∅ →
  let out := Timer.submit None debug (TagsDict items) tm in
  out.1.1 = Raise (NameError "sample_rate")
  ∧ out.2 = []
  ∧ S (size (Timer.data out.1.2)) = size (Timer.data tm)
  ∧ Timer.data out.1.2 ⊆ Timer.data tm
  ∧ Timer.starts out.1.2 = Timer.starts tm.
Proof.
  intros Hne. cbn zeta. rewrite timer_submit_unbound.
  destruct (map_to_list (Timer.data tm)) as [|[k v] l] eqn:Hl.
  { by apply map_to_list_empty_iff in Hl. }
  cbn [fst snd Timer.data Timer.starts].
  assert (Hk : Timer.data tm !! k = Some v).
  { apply elem_of_map_to_list. rewrite Hl. left. }
  split; [done|]. split; [done|]. split; [|split; [|done]].
  - rewrite map_size_delete, Hk.
    assert (size (Timer.data tm) ≠ 0%nat)
      by (by eapply map_size_ne_0_lookup_2).
    lia.
  - apply delete_subseteq.
Qed.

Lemma timer_flush_unbound_drops_one_witness :
  let tm := (timer_run (sequential_ops "db" [(1, 2); (3, 5)]%float)
               (Timer.new default_settings "view")).2 in
  let out := Timer.submit None false (TagsDict [("method", "get")]) tm in
  out.1.1 = Raise (NameError "sample_rate")
  ∧ out.2 = []
  ∧ S (size (Timer.data out.1.2)) = size (Timer.data tm)
  ∧ Timer.data out.1.2 ⊆ Timer.data tm
  ∧ Timer.starts out.1.2 = Timer.starts tm.
Proof.
  apply (timer_flush_unbound_drops_one false [("method", "get")]
           (timer_run (sequential_ops "db" [(1, 2); (3, 5)]%float)
              (Timer.new default_settings "view")).2).
  intros H. apply (f_equal (.!! "db")) in H. vm_compute in H. discriminate.
Defined.

(** ** Counters *)

Lemma counter_increment_comm (k1 k2 : string) (d1 d2 : Z) (c : Counter.t) :
  Counter.increment k2 d2 (Counter.increment k1 d1 c) =
  Counter.increment k1 d1 (Counter.increment k2 d2 c).
Proof.
  unfold Counter.increment. cbn [Counter.prefix Counter.data]. f_equal.
  destruct (decide (k1 = k2)) as [->|Hne].
  - rewrite !lookup_insert_eq, !insert_insert_eq. cbn. f_equal. lia.
  - rewrite !lookup_insert_ne by done. by apply insert_insert_ne.
Qed.

Lemma counter_step_comm (a b : CounterOp) (c : Counter.t) :
  counter_step (counter_step c a) b = counter_step (counter_step c b) a.
Proof.
  destruct a, b; cbn [counter_step];
    rewrite ?decrement_as_increment; apply counter_increment_comm.
Qed.

(** X8.  The order of the calls on a counter does not matter: two runs of
    the same [increment] and [decrement] calls, in any two orders, leave
    the same value under every key, so that a flush returns the same way
    and sends the same events, up to their order. *)
Theorem counter_run_any_order (ops ops' : list CounterOp) (c : Counter.t) :
  ops ≡ₚ ops' →
  counter_run ops c = counter_run ops' c
  ∧ ∀ rate tags,
      (Counter.submit rate tags (counter_run ops c)).1 =
        (Counter.submit rate tags (counter_run ops' c)).1
      ∧ (Counter.submit rate tags (counter_run ops c)).2 ≡ₚ
          (Counter.submit rate tags (counter_run ops' c)).2.
Proof.
  intros Hperm.
  assert (Heq : counter_run ops c = counter_run ops' c).
  { revert c. unfold counter_run.
    induction Hperm as [|x l l' _ IH|x y l|l l' l'' _ IH1 _ IH2]; intros c.
    - done.
    - cbn. apply IH.
    - cbn. by rewrite counter_step_comm.
    - by rewrite IH1. }
  split; [done|]. intros rate tags. by rewrite Heq.
Qed.

Lemma counter_run_any_order_witness :
  let c := Counter.new tracking_settings "view" in
  let ops := [Incr "hit" 1; Decr "miss" 2; Incr "hit" 3] in
  let ops' := [Incr "hit" 3; Incr "hit" 1; Decr "miss" 2] in
  counter_run ops c = counter_run ops' c
  ∧ ∀ rate tags,
      (Counter.submit rate tags (counter_run ops c)).1 =
        (Counter.submit rate tags (counter_run ops' c)).1
      ∧ (Counter.submit rate tags (counter_run ops c)).2 ≡ₚ
          (Counter.submit rate tags (counter_run ops' c)).2.
Proof.
  apply (counter_run_any_order
           [Incr "hit" 1; Decr "miss" 2; Incr "hit" 3]
           [Incr "hit" 3; Incr "hit" 1; Decr "miss" 2]
           (Counter.new tracking_settings "view")).
  etrans; [apply Permutation_skip, Permutation_swap|apply Permutation_swap].
Defined.

(** ** The entry points *)

(** X9.  With the module's [sample_rate] unbound (tracking switched off,
    the default), [end] after [begin] raises [NameError] for every prefix
    and every tag mapping: nothing reaches the sink, the "total" span has
    been popped and lost, and the scope stays bound. *)
Theorem end_with_unbound_sample_rate
    (cfg : Settings) (t0 t1 : float) (prefix : string)
    (items : list (string * string)) (w : World) :
  sample_rate cfg = None →
  let out := (StatsdMiddleware.start cfg t0 prefix;;
              StatsdMiddleware.stop cfg t1 (TagsDict items)) w in
  out.1 = Raise (NameError "sample_rate")
  ∧ sink out.2 = sink w
  ∧ (Timer.data <$> timers out.2 !! length (timers w)) = Some ∅
  ∧ scope_timings out.2 = Some (length (timers w)).
Proof.
  intros Hr. cbn zeta. unfold mbind, M_bind.
  rewrite middleware_start_world. cbv beta iota.
  match goal with |- context [StatsdMiddleware.stop _ _ _ ?w1] =>
    set (w1' := w1) end.
  destruct (middleware_stop_steps cfg t1 (TagsDict items) w1') as [_ Hstop].
  specialize (Hstop (length (timers w)) _ _ _ eq_refl
    (list_lookup_middle _ _ _ _ eq_refl) eq_refl eq_refl).
  cbn zeta in Hstop. destruct Hstop as (Hres & Hsink & Htm & Ht & _).
  rewrite Hres, Hsink, Htm, Ht. clear Hres Hsink Htm Ht.
  rewrite timer_start_stop, Hr, timer_submit_unbound.
  cbn [fst snd Timer.data Timer.starts Timer.prefix Timer.new].
  rewrite lookup_empty. cbn [default from_option id].
  rewrite insert_empty, map_to_list_singleton.
  cbn [fst snd is_raise Timer.data fmap option_fmap option_map].
  rewrite delete_singleton_eq, app_nil_r. done.
Qed.

Lemma end_with_unbound_sample_rate_witness :
  let out := (StatsdMiddleware.start default_settings 10 "view";;
              StatsdMiddleware.stop default_settings 12.5
                (TagsDict [("method", "get")])) empty_world in
  out.1 = Raise (NameError "sample_rate")
  ∧ sink out.2 = sink empty_world
  ∧ (Timer.data <$> timers out.2 !! length (timers empty_world)) = Some ∅
  ∧ scope_timings out.2 = Some (length (timers empty_world)).
Proof.
  apply (end_with_unbound_sample_rate default_settings 10 12.5 "view"
           [("method", "get")] empty_world).
  reflexivity.
Defined.

(** X10.  [begin] throws away whatever the thread had accumulated: after
    it, every outcome and every event sent by the entry points called next
    is that of a thread that called [begin] with nothing accumulated. *)
Theorem begin_discards (cfg : Settings) (now : float) (prefix : string)
    (cs : list Call) (w : World) :
  let blank := set_sink (sink w) empty_world in
  (run_calls cfg (CallBegin now prefix :: cs) w).1 =
    (run_calls cfg (CallBegin now prefix :: cs) blank).1
  ∧ sink (run_calls cfg (CallBegin now prefix :: cs) w).2 =
      sink (run_calls cfg (CallBegin now prefix :: cs) blank).2.
Proof.
  cbn zeta. cbn [run_calls call].
  destruct (same_view_begin cfg now prefix w (set_sink (sink w) empty_world))
    as [Hres Hv]; [done|].
  destruct (StatsdMiddleware.start cfg now prefix w) as [r1 w1],
           (StatsdMiddleware.start cfg now prefix _) as [r2 w2].
  cbn [fst snd] in *. subst r2.
  destruct (same_view_run_calls cfg cs w1 w2 Hv) as [Hress Hsink].
  destruct (run_calls cfg cs w1) as [rs1 w1'],
           (run_calls cfg cs w2) as [rs2 w2'].
  cbn [fst snd] in *. by subst rs2.
Qed.

(** X11.  A failed celery task: after [task_prerun] and the failure
    handler, the [task_postrun] handler finds no timer bound, returns
    normally and sends nothing, whatever the task name and the settings;
    the hit and the "total" span of the task never reach the sink. *)
Theorem failed_task_sends_nothing
    (cfg : Settings) (t0 t1 : float) (name : string) (w : World) :
  (failed_task_run cfg t0 t1 name w).1 = Ret tt
  ∧ sink (failed_task_run cfg t0 t1 name w).2 = sink w
  ∧ scope_timings (failed_task_run cfg t0 t1 name w).2 = None.
Proof.
  unfold failed_task_run, celery.start, celery.stop, mbind, M_bind.
  rewrite middleware_start_world, clear_world.
  by rewrite middleware_stop_no_scope.
Qed.

Lemma helper_call_no_scope cfg (c : Call) (w : World) :
  is_helper_call c = true →
  scope_timings w = None → scope_counter w = None →
  call cfg c w = (Ret tt, w).
Proof.
  intros Hc Ht Hcn. destruct c; try discriminate; cbn [call].
  - by apply middleware_stop_no_scope.
  - unfold start, mbind, M_bind, gets. by rewrite Ht.
  - unfold stop, mbind, M_bind, gets. by rewrite Ht.
  - unfold incr, mbind, M_bind, gets. by rewrite Hcn.
  - unfold decr, mbind, M_bind, gets. by rewrite Hcn.
Qed.

(** X12.  Instrumented code may run outside any unit of work: with no
    timer and no counter bound, every sequence of [start], [stop], [incr],
    [decr] and [end] calls returns normally at every call and leaves the
    thread's state, the sink included, exactly as it was. *)
Theorem helpers_without_scope (cfg : Settings) (cs : list Call) (w : World) :
  forallb is_helper_call cs = true →
  scope_timings w = None → scope_counter w = None →
  run_calls cfg cs w = (const (Ret tt) <$> cs, w).
Proof.
  intros Hcs Ht Hc. induction cs as [|c cs IH]; [done|].
  cbn [forallb] in Hcs. apply andb_prop in Hcs as [Hh Hcs].
  cbn [run_calls]. rewrite (helper_call_no_scope cfg c w) by done.
  by rewrite IH.
Qed.

Lemma helpers_without_scope_witness :
  run_calls default_settings
    [CallStart 1 "db"; CallIncr "rows" 3; CallStop 2 "db";
     CallDecr "rows" 1; CallEnd 3 (TagsDict [])] empty_world =
  (const (Ret tt) <$>
     [CallStart 1 "db"; CallIncr "rows" 3; CallStop 2 "db";
      CallDecr "rows" 1; CallEnd 3 (TagsDict [])], empty_world).
Proof.
  apply (helpers_without_scope default_settings
           [CallStart 1 "db"; CallIncr "rows" 3; CallStop 2 "db";
            CallDecr "rows" 1; CallEnd 3 (TagsDict [])] empty_world);
    reflexivity.
Defined.

(** ** What the entry points never do *)

Lemma timer_stop_documented (now : float) (key : string) (tm : Timer.t) :
  documented_outcome (Timer.stop now key tm).1.
Proof.
  unfold Timer.stop. by destruct (Timer.deque_pop _) as [[s rest]|].
Qed.

Lemma timer_submit_documented rate (debug : bool) (tags : PyTags)
    (tm : Timer.t) :
  documented_outcome (Timer.submit rate debug tags tm).1.1.
Proof.
  destruct tags as [items|s]; [|cbn; by left].
  destruct rate as [r|].
  - rewrite timer_submit_bound. cbn. by destruct (debug && _).
  - rewrite timer_submit_unbound.
    destruct (map_to_list (Timer.data tm)) as [|[k v] l]; cbn; [|done].
    by destruct (debug && _).
Qed.

Lemma counter_submit_documented rate (tags : PyTags) (c : Counter.t) :
  documented_outcome (Counter.submit rate tags c).1.
Proof.
  destruct tags as [items|s]; [|cbn; by left].
  destruct rate as [r|].
  - by rewrite counter_submit_returns.
  - unfold Counter.submit. cbn [format_tags].
    rewrite counter_submit_loop_unbound. cbn. by destruct (decide _).
Qed.

Lemma scope_consistent_no_timer (w : World) :
  scope_timings w = None → scope_consistent w.
Proof. intros H. unfold scope_consistent. by rewrite H. Qed.

Lemma scope_consistent_on_timer {A} (a : nat) (w : World)
    (method : Timer.t → Res A * Timer.t * list Emission) :
  scope_consistent w → scope_timings w = Some a →
  scope_consistent (on_timer a method w).2
  ∧ ∃ tm, timers w !! a = Some tm ∧ (on_timer a method w).1 = (method tm).1.1.
Proof.
  intros Hc Ht. unfold scope_consistent in *. rewrite Ht in Hc.
  destruct Hc as ([tm Ha] & Hcn & Hcs).
  rewrite (on_timer_lookup a tm) by done. cbn. rewrite Ht.
  rewrite list_lookup_insert_eq by (by eapply lookup_lt_Some). eauto 10.
Qed.

Lemma scope_consistent_begin cfg (now : float) (prefix : string) (w : World) :
  scope_consistent (StatsdMiddleware.start cfg now prefix w).2
  ∧ (StatsdMiddleware.start cfg now prefix w).1 = Ret tt.
Proof.
  rewrite middleware_start_world. unfold scope_consistent. cbn.
  rewrite list_lookup_middle by done. eauto 10.
Qed.

Lemma scope_consistent_end cfg (now : float) (tags : PyTags) (w : World) :
  scope_consistent w →
  scope_consistent (StatsdMiddleware.stop cfg now tags w).2
  ∧ documented_outcome (StatsdMiddleware.stop cfg now tags w).1.
Proof.
  intros Hc. destruct (scope_timings w) as [a|] eqn:Ht.
  - pose proof Hc as Hc'. unfold scope_consistent in Hc'. rewrite Ht in Hc'.
    destruct Hc' as ([tm Ha] & [c Hcn] & [cs Hcs]).
    destruct (proj2 (middleware_stop_steps cfg now tags w) a tm c cs
                Ht Ha Hcn Hcs) as (Hres & _ & Htm & Ht' & Hcn' & Hcs').
    split.
    + unfold scope_consistent. rewrite Ht', Htm, Hcn', Hcs'. eauto.
    + rewrite Hres.
      pose proof (timer_stop_documented now "total" tm) as H1.
      pose proof (timer_submit_documented (sample_rate cfg) (DEBUG cfg) tags
                    (Timer.stop now "total" tm).2) as H2.
      pose proof (counter_submit_documented (sample_rate cfg) tags c) as H3.
      pose proof (counter_submit_documented (sample_rate cfg)
                    (TagsDict [("type", "site")]) cs) as H4.
      destruct (Timer.stop now "total" tm).1; [|done].
      destruct (Timer.submit _ _ _ _).1.1; [|done].
      by destruct (Counter.submit _ tags c).1.
  - by rewrite middleware_stop_no_scope.
Qed.

Lemma scope_consistent_call cfg (c : Call) (w : World) :
  scope_consistent w →
  scope_consistent (call cfg c w).2 ∧ documented_outcome (call cfg c w).1.
Proof.
  intros Hc.
  destruct c as [|now prefix|now tags| |now key|now key|key v|key v
                |now|now [name|]|]; cbn [call].
  - split; [by apply scope_consistent_no_timer|done].
  - destruct (scope_consistent_begin cfg now prefix w) as [? ->]. done.
  - by apply scope_consistent_end.
  - rewrite cleanup_world. split; [by apply scope_consistent_no_timer|done].
  - unfold start, mbind, M_bind, gets.
    destruct (scope_timings w) as [a|] eqn:Ht; [|done].
    destruct (scope_consistent_on_timer a w
                (λ tm, (Ret tt, Timer.start now key tm, [])) Hc Ht)
      as (? & tm & _ & Hres).
    unfold timer_start. split; [done|]. by rewrite Hres.
  - unfold stop, mbind, M_bind, gets.
    destruct (scope_timings w) as [a|] eqn:Ht; [|done].
    destruct (scope_consistent_on_timer a w
                (λ tm, let '(res, tm') := Timer.stop now key tm in
                       (res, tm', [])) Hc Ht)
      as (Hc' & tm & _ & Hres).
    unfold timer_stop.
    pose proof (timer_stop_documented now key tm) as Hdoc.
    destruct (on_timer a _ w) as [[d|e] w'] eqn:Hrun; cbn [fst snd] in *.
    + done.
    + split; [done|]. destruct (Timer.stop now key tm) as [[d'|e'] tm'];
        cbn in *; congruence.
  - rewrite incr_world. split; [|done].
    unfold scope_consistent in *. cbn.
    destruct (scope_timings w); [|done].
    destruct Hc as (? & [c ->] & ?). eauto.
  - rewrite decr_world. split; [|done].
    unfold scope_consistent in *. cbn.
    destruct (scope_timings w); [|done].
    destruct Hc as (? & [c ->] & ?). eauto.
  - destruct (scope_consistent_begin cfg now "celery" w) as [? Hres].
    unfold celery.start. by rewrite Hres.
  - unfold celery.stop, mbind, M_bind.
    destruct (scope_consistent_end cfg now (TagsStr name) w Hc) as [Hc' Hdoc].
    destruct (StatsdMiddleware.stop cfg now (TagsStr name) w) as [[[]|e] w'];
      cbn [fst snd] in *; [|done].
    split; [by apply scope_consistent_no_timer|done].
  - split; [done|]. cbn. by right.
  - rewrite clear_world. split; [by apply scope_consistent_no_timer|done].
Qed.

(** X13.  The entry points keep the scope consistent: whenever a timer is
    bound it is in the store and both counters are bound with it.  So on a
    thread that starts with no timer bound, whatever sequence of entry
    points is called, no call ever fails on a missing counter, a missing
    timer object or a missing key of the totals: every outcome is a normal
    return, a failed assertion, the [NameError] of the unbound
    [sample_rate], or the [AttributeError] of a [str] passed as tags or of
    a missing task. *)
Theorem entry_points_keep_scope_consistent
    (cfg : Settings) (cs : list Call) (w : World) :
  scope_consistent w →
  scope_consistent (run_calls cfg cs w).2
  ∧ Forall documented_outcome (run_calls cfg cs w).1.
Proof.
  revert w. induction cs as [|c cs IH]; intros w Hc; [by split|].
  cbn [run_calls].
  destruct (scope_consistent_call cfg c w Hc) as [Hc' Hdoc].
  destruct (call cfg c w) as [res w']. cbn [fst snd] in *.
  destruct (IH w' Hc') as [Hc'' Hdocs].
  destruct (run_calls cfg cs w') as [ress w'']. cbn [fst snd] in *.
  split; [done|]. by constructor.
Qed.

Lemma entry_points_keep_scope_consistent_witness :
  let cs := [CallBegin 10 "view"; CallStop 11 "db"; CallIncr "rows" 2;
             CallEnd 12 (TagsStr "tasks.add"); CallTaskFailure;
             CallEnd 13 (TagsDict [])] in
  scope_consistent (run_calls debug_settings cs empty_world).2
  ∧ Forall documented_outcome (run_calls debug_settings cs empty_world).1.
Proof.
  apply (entry_points_keep_scope_consistent debug_settings
           [CallBegin 10 "view"; CallStop 11 "db"; CallIncr "rows" 2;
            CallEnd 12 (TagsStr "tasks.add"); CallTaskFailure;
            CallEnd 13 (TagsDict [])] empty_world).
  exact I.
Defined.

(** ** Wrapped functions *)

(** A [with] block on a bound timer whose body leaves the span it opened
    as the latest open span of the key: the block ends as its body did,
    sends nothing of its own, closes the span and adds its duration. *)
Lemma with_span_balanced {A} (key : string) (t_in t_out : float)
    (body : M A) (w : World) (a : nat) (tm tm2 : Timer.t) :
  scope_timings w = Some a →
  timers w !! a = Some tm →
  let w1 := (timer_start a t_in key w).2 in
  timers (body w1).2 !! a = Some tm2 →
  default [] (Timer.starts tm2 !! key) =
    default [] (Timer.starts tm !! key) ++ [t_in] →
  let out := py_with (with_ key) t_in t_out body w in
  out.1 = (body w1).1
  ∧ sink out.2 = sink (body w1).2
  ∧ ∃ tm3, timers out.2 !! a = Some tm3
      ∧ default [] (Timer.starts tm3 !! key) =
          default [] (Timer.starts tm !! key)
      ∧ Timer.data tm3 !! key =
          Some (default 0 (Timer.data tm2 !! key) + (t_out - t_in))%float.
Proof.
  intros Ht Ha w1 Hbody Hq. cbn zeta.
  pose proof (with_span_unfold key t_in t_out body w) as H.
  rewrite Ht in H. destruct H as (_ & _ & _ & ->).
  assert (Hstart : timer_start a t_in key w = (Ret tt, w1)).
  { unfold w1, timer_start. by rewrite (on_timer_lookup a tm). }
  rewrite Hstart.
  destruct (timer_stop_snoc t_out t_in _ key tm2 Hq)
    as (tm3 & Hstop & _ & Hq3 & Hd3 & _).
  unfold timer_stop. rewrite (on_timer_lookup a tm2) by done.
  rewrite Hstop. cbn [fst snd]. split; [done|]. split.
  - cbn. by rewrite app_nil_r.
  - exists tm3. cbn.
    rewrite list_lookup_insert_eq by (by eapply lookup_lt_Some).
    by rewrite Hd3, lookup_insert_eq.
Qed.

(** X14.  A function wrapped by [wrapper], [decorator] or [named_wrapper]
    times itself under [prefix.name], the name lower-cased by [str.lower].  With no
    timer bound the wrapped call is the call itself.  With a timer bound,
    if the call leaves the span opened for it as the latest open span of
    that key (it may open and close spans of its own), the wrapped call
    ends as the call did, an exception included, sends nothing of its own,
    and the span is closed and its duration added to the total. *)
Theorem wrapper_times_the_call {A} (lower : string → string)
    (prefix : string) (t_in t_out : float) (f : PyFunction A) (w : World) :
  let key := prefix +:+ "." +:+ lower (func_name f) in
  decorator lower prefix t_in t_out f = wrapper lower prefix t_in t_out f
  ∧ wrapper lower prefix t_in t_out f = named_wrapper key t_in t_out (func_call f)
  ∧ match scope_timings w with
    | None => wrapper lower prefix t_in t_out f w = func_call f w
    | Some a =>
        ∀ tm tm2,
          timers w !! a = Some tm →
          let w1 := (timer_start a t_in key w).2 in
          timers (func_call f w1).2 !! a = Some tm2 →
          default [] (Timer.starts tm2 !! key) =
            default [] (Timer.starts tm !! key) ++ [t_in] →
          let out := wrapper lower prefix t_in t_out f w in
          out.1 = (func_call f w1).1
          ∧ sink out.2 = sink (func_call f w1).2
          ∧ ∃ tm3, timers out.2 !! a = Some tm3
              ∧ default [] (Timer.starts tm3 !! key) =
                  default [] (Timer.starts tm !! key)
              ∧ Timer.data tm3 !! key =
                  Some (default 0 (Timer.data tm2 !! key)
                        + (t_out - t_in))%float
    end.
Proof.
  cbn zeta. split; [done|]. split; [done|].
  destruct (scope_timings w) as [a|] eqn:Ht.
  - intros tm tm2 Ha Hbody Hq. unfold wrapper.
    by apply (with_span_balanced _ t_in t_out (func_call f) w a tm tm2).
  - unfold wrapper.
    pose proof (with_span_unfold (prefix +:+ "." +:+ lower (func_name f))
                  t_in t_out (func_call f) w) as H.
    rewrite Ht in H. by destruct H as (_ & _ & ->).
Qed.

(** A wrapped function that times a query of its own and then raises: the
    exception reaches the caller and both spans are counted. *)
Lemma wrapper_times_the_call_witness :
  let f : PyFunction unit :=
    {| func_name := "Load_User";
       func_call := named_wrapper "query" 12 13
                      (raise (Exception "no such user")) |} in
  let out := wrapper lower_ascii "models" 11 14 f begun_world in
  out.1 = (Raise (Exception "no such user") : Res unit)
  ∧ sink out.2 = []
  ∧ ∃ tm3, timers out.2 !! 0%nat = Some tm3
      ∧ default [] (Timer.starts tm3 !! "models.load_user") = []
      ∧ Timer.data tm3 !! "models.load_user" = Some 3%float
      ∧ Timer.data tm3 !! "query" = Some 1%float.
Proof.
  cbn zeta.
  pose proof (wrapper_times_the_call (A := unit) lower_ascii "models" 11 14
    {| func_name := "Load_User";
       func_call := named_wrapper "query" 12 13
                      (raise (Exception "no such user")) |} begun_world) as H.
  cbn zeta in H. destruct H as (_ & _ & H).
  change (scope_timings begun_world) with (Some 0%nat) in H.
  edestruct H as (Hres & Hsink & tm3 & Htm3 & Hq & Hd);
    [reflexivity|reflexivity|reflexivity|].
  rewrite Hres, Hsink. split; [reflexivity|]. split; [reflexivity|].
  exists tm3. split; [done|]. split; [done|]. split.
  - exact Hd.
  - vm_compute in Htm3. injection Htm3 as <-. reflexivity.
Defined.

(** ** Requests *)

(** A method call through the scope on a world whose bound timer is the
    last object of the store, as [begin] leaves it. *)
Lemma scope_timings_method_scoped {A} (name : string)
    (method : Timer.t → Res A * Timer.t * list Emission)
    (ts : list Timer.t) (tm : Timer.t) c cs s v b :
  scope_timings_method name (λ a, on_timer a method)
    (mkWorld (ts ++ [tm]) (Some (length ts)) c cs s v b) =
  ((method tm).1.1,
   mkWorld (ts ++ [(method tm).1.2]) (Some (length ts)) c cs
           (s ++ (method tm).2) v b).
Proof.
  unfold scope_timings_method, mbind, M_bind, gets. cbn [scope_timings].
  rewrite (on_timer_lookup _ tm) by (by apply list_lookup_middle).
  cbn. by rewrite insert_app_r_alt, Nat.sub_diag.
Qed.

Lemma tracked_start_scoped (now : float) (key name : string)
    (ts : list Timer.t) (tm : Timer.t) c cs s v b :
  scope_timings_method name (λ a, timer_start a now key)
    (mkWorld (ts ++ [tm]) (Some (length ts)) c cs s v b) =
  (Ret tt,
   mkWorld (ts ++ [Timer.start now key tm]) (Some (length ts)) c cs s v b).
Proof.
  unfold timer_start. rewrite scope_timings_method_scoped. cbn.
  by rewrite app_nil_r.
Qed.

Lemma tracked_stop_scoped (now : float) (key name : string)
    (ts : list Timer.t) (tm : Timer.t) c cs s v b :
  scope_timings_method name (λ a, timer_stop a now key)
    (mkWorld (ts ++ [tm]) (Some (length ts)) c cs s v b) =
  ((Timer.stop now key tm).1,
   mkWorld (ts ++ [(Timer.stop now key tm).2]) (Some (length ts)) c cs s v b).
Proof.
  unfold timer_stop. rewrite scope_timings_method_scoped.
  destruct (Timer.stop now key tm) as [res tm']. cbn. by rewrite app_nil_r.
Qed.

Ltac world_simpl :=
  unfold modify, set_timers, set_timings, set_counter, set_counter_site,
    set_sink, set_view_name, set_request_statsd;
  cbn [fst snd timers scope_timings scope_counter scope_counter_site sink
       view_name request_statsd].

(** Running a computation and then its continuation. *)
Lemma bind_run {A B} (m : M A) (f : A → M B) (w : World) :
  (m ≫= f) w =
  match (m w).1 with
  | Ret a => f a (m w).2
  | Raise e => (Raise e, (m w).2)
  end.
Proof. unfold mbind, M_bind. by destruct (m w) as [[a|e] w']. Qed.

Lemma process_request_tracked cfg (t0 t1 : float) (w : World) :
  TRACK_MIDDLEWARE cfg = true →
  StatsdMiddleware.process_request cfg t0 t1 w =
  (Ret tt,
   mkWorld (timers w ++
              [Timer.start t1 "process_request"
                 (Timer.start t0 "total" (Timer.new cfg "view"))])
           (Some (length (timers w)))
           (Some (Counter.increment "hit" 1 (Counter.new cfg "view")))
           (Some (Counter.increment "hit" 1 (Counter.new cfg "view")))
           (sink w) None true).
Proof.
  intros Htrack. unfold StatsdMiddleware.process_request.
  rewrite Htrack, bind_run, middleware_start_world. cbn [fst snd].
  rewrite bind_run. world_simpl.
  rewrite bind_run, tracked_start_scoped. by world_simpl.
Qed.

Lemma process_request_untracked cfg (t0 t1 : float) (w : World) :
  TRACK_MIDDLEWARE cfg = false →
  StatsdMiddleware.process_request cfg t0 t1 w =
  (Ret tt,
   mkWorld (timers w ++ [Timer.start t0 "total" (Timer.new cfg "view")])
           (Some (length (timers w)))
           (Some (Counter.increment "hit" 1 (Counter.new cfg "view")))
           (Some (Counter.increment "hit" 1 (Counter.new cfg "view")))
           (sink w) None true).
Proof.
  intros Htrack. unfold StatsdMiddleware.process_request.
  rewrite Htrack, bind_run, middleware_start_world. cbn [fst snd].
  rewrite bind_run. world_simpl. rewrite bind_run. by world_simpl.
Qed.


Lemma bind_ret {A B} (m : M A) (f : A → M B) (w w' : World) (a : A) :
  m w = (Ret a, w') → (m ≫= f) w = f a w'.
Proof. intros H. unfold mbind, M_bind. by rewrite H. Qed.

Lemma bind_raise {A B} (m : M A) (f : A → M B) (w w' : World) (e : PyExc) :
  m w = (Raise e, w') → (m ≫= f) w = (Raise e, w').
Proof. intros H. unfold mbind, M_bind. by rewrite H. Qed.

Lemma bind_assoc {A B C} (m : M A) (f : A → M B) (g : B → M C) (w : World) :
  ((m ≫= f) ≫= g) w = (m ≫= λ a, f a ≫= g) w.
Proof.
  unfold mbind, M_bind. by destruct (m w) as [[a|e] w'].
Qed.

Lemma bind_gets {A B} (f : World → A) (k : A → M B) (w : World) :
  (gets f ≫= k) w = k (f w) w.
Proof. done. Qed.

Lemma bind_mret {A B} (a : A) (f : A → M B) (w : World) :
  (mret a ≫= f) w = f a w.
Proof. done. Qed.

Lemma bind_modify {B} (g : World → World) (f : unit → M B) (w : World) :
  (modify g ≫= f) w = f tt (g w).
Proof. done. Qed.

Ltac run_binds :=
  repeat (first [rewrite bind_assoc | rewrite bind_mret | rewrite bind_modify];
          cbv beta).

Lemma view_name_of_nonempty (view : ViewFunc) : view_name_of view ≠ "".
Proof.
  unfold view_name_of. destruct (view_module view); cbn; discriminate.
Qed.

(** A hook that closes a span, on a world as [begin] leaves it. *)
Lemma tracked_stop_hook (now : float) (key name : string)
    (ts : list Timer.t) (tm : Timer.t) c cs s v b :
  is_raise (Timer.stop now key tm).1 = false →
  (scope_timings_method name (λ a, timer_stop a now key);; mret tt)
    (mkWorld (ts ++ [tm]) (Some (length ts)) c cs s v b) =
  (Ret tt,
   mkWorld (ts ++ [(Timer.stop now key tm).2]) (Some (length ts)) c cs s v b).
Proof.
  intros Hok. rewrite bind_run, tracked_stop_scoped. cbn [fst snd].
  by destruct (Timer.stop now key tm).1.
Qed.

(** [end] followed by [cleanup], on a world as [begin] leaves it, when
    every step of [end] returns normally. *)
Lemma stop_cleanup_scoped {R} cfg (now : float) (tags : PyTags) (response : R)
    (ts : list Timer.t) (tm : Timer.t) (c cs : Counter.t) s v b :
  let rate := sample_rate cfg in
  let stopped := Timer.stop now "total" tm in
  let flushed := Timer.submit rate (DEBUG cfg) tags stopped.2 in
  let primary := Counter.submit rate tags c in
  let site := Counter.submit rate (TagsDict [("type", "site")]) cs in
  is_raise stopped.1 = false → is_raise flushed.1.1 = false →
  is_raise primary.1 = false → is_raise site.1 = false →
  let out := (StatsdMiddleware.stop cfg now tags;;
              StatsdMiddleware.cleanup;; mret response)
               (mkWorld (ts ++ [tm]) (Some (length ts)) (Some c) (Some cs)
                        s v b) in
  out.1 = Ret response
  ∧ sink out.2 = s ++ flushed.2 ++ primary.2 ++ site.2
  ∧ scope_timings out.2 = None
  ∧ scope_counter out.2 = None
  ∧ view_name out.2 = None
  ∧ request_statsd out.2 = false.
Proof.
  intros rate stopped flushed primary site H1 H2 H3 H4. cbn zeta.
  set (w := mkWorld _ _ _ _ _ _ _).
  destruct (proj2 (middleware_stop_steps cfg now tags w) (length ts) tm c cs
              eq_refl (list_lookup_middle _ _ _ _ eq_refl) eq_refl eq_refl)
    as (Hres & Hsink & _).
  fold rate stopped flushed primary site in Hres, Hsink.
  rewrite H1, H2, H3 in Hsink.
  destruct stopped.1; [|done]. destruct flushed.1.1; [|done].
  destruct primary.1; [|done]. destruct site.1 as [[]|]; [|done].
  destruct (StatsdMiddleware.stop cfg now tags w) as [res w'] eqn:Hrun.
  cbn [fst snd] in Hres, Hsink. subst res.
  rewrite (bind_ret _ _ _ _ _ Hrun), bind_run, cleanup_world. by cbn.
Qed.
(** X15.  A request through both middlewares with tracking on, for a
    resolved view: every hook returns normally and the response is passed
    on; the sink receives, tagged with the method lower-cased by [str.lower] (suffixed
    [_ajax] for an ajax request), the view name and [type:view], the four
    timings [total], [process_request], [process_view] and
    [process_response], each the difference of its two readings added to
    0.0, then the primary hit; and the site hit tagged [type:site].  The
    scope is cleared afterwards. *)
Theorem tracked_request_emissions {R} (lower : string → string)
    (cfg : Settings) (t0 t1 t2 t3 t4 t5 t6 t7 : float)
    (view : ViewFunc) (request : Request) (response : R) (w : World) :
  TRACK_MIDDLEWARE cfg = true →
  let p := Client.init_prefix cfg "view" in
  let r := default 1%float (STATSD_SAMPLE_RATE cfg) in
  let tags :=
    tag_strings
      [("method",
        if is_ajax request then lower (method request) +:+ "_ajax"
        else lower (method request));
       ("view_name", view_name_of view);
       ("type", "view")] in
  let out := tracked_request lower cfg t0 t1 t2 t3 t4 t5 t6 t7
               view request response w in
  out.1 = Ret response
  ∧ (∃ sent,
       sink out.2 = sink w ++ sent
       ∧ sent ≡ₚ
           [StatsdTiming (p +:+ ".total") (0 + (t7 - t0))%float tags r;
            StatsdTiming (p +:+ ".process_request") (0 + (t2 - t1))%float tags r;
            StatsdTiming (p +:+ ".process_view") (0 + (t4 - t3))%float tags r;
            StatsdTiming (p +:+ ".process_response") (0 + (t6 - t5))%float tags r;
            StatsdIncrement (p +:+ ".hit") 1 tags r;
            StatsdIncrement (p +:+ ".hit") 1 ["type:site"] r])
  ∧ scope_timings out.2 = None
  ∧ scope_counter out.2 = None
  ∧ view_name out.2 = None.
Proof.
  intros Htrack. cbn zeta.
  assert (Hrate : sample_rate cfg =
                  Some (default 1%float (STATSD_SAMPLE_RATE cfg)))
    by (unfold sample_rate; by rewrite Htrack).
  unfold tracked_request.
  rewrite (bind_ret _ _ _ _ _ (process_request_tracked cfg t0 t1 w Htrack)).
  unfold StatsdMiddlewareTimer.process_request,
    StatsdMiddlewareTimer.process_view, StatsdMiddleware.process_view,
    StatsdMiddlewareTimer.process_response, StatsdMiddleware.process_response.
  rewrite Htrack. unfold Timer.new, Counter.new.
  generalize (Client.init_prefix cfg "view"). intros p.
  erewrite bind_ret; [|by apply tracked_stop_hook].
  rewrite bind_run, bind_run, tracked_start_scoped. world_simpl.
  erewrite bind_ret; [|by apply tracked_stop_hook].
  rewrite bind_run, bind_run, tracked_start_scoped. world_simpl.
  cbn [mret M_ret fst snd].
  erewrite bind_ret; [|by apply tracked_stop_hook].
  rewrite bind_gets. world_simpl. fold (view_name_of view).
  rewrite decide_False by apply view_name_of_nonempty.
  set (tm := (Timer.stop t6 _ _).2).
  set (c := Counter.increment "hit" 1 _).
  set (tags := StatsdMiddleware.response_tags lower request (view_name_of view)).
  assert (Htm : tm = Timer.mk p {["total" := [t0]]}
            (<["process_response" := (0 + (t6 - t5))%float]>
               (<["process_view" := (0 + (t4 - t3))%float]>
                  {["process_request" := (0 + (t2 - t1))%float]})))
    by (by vm_compute).
  clearbody tm. subst tm.
  match goal with |- context [mkWorld (?ts ++ [?tm]) _ _ _ ?s ?v ?b] =>
    pose proof (stop_cleanup_scoped cfg t7 tags response ts tm c c s v b) as H
  end.
  cbn zeta in H. rewrite Hrate in H.
  unfold tags, StatsdMiddleware.response_tags in H.
  rewrite timer_submit_bound, !counter_submit_returns in H.
  change (Timer.stop t7 "total" _) with
    (Ret (t7 - t0)%float,
     Timer.mk p ∅
       (<["total" := (0 + (t7 - t0))%float]>
          (<["process_response" := (0 + (t6 - t5))%float]>
             (<["process_view" := (0 + (t4 - t3))%float]>
                {["process_request" := (0 + (t2 - t1))%float]})))) in H.
  cbn [fst snd is_raise Timer.starts Timer.data Timer.prefix] in H.
  rewrite bool_decide_eq_true_2, andb_false_r in H by done.
  destruct H as (Hres & Hsink & Ht & Hc & Hv & _); [done..|].
  unfold tags, StatsdMiddleware.response_tags.
  split; [exact Hres|]. split; [|done].
  eexists. split; [exact Hsink|].
  unfold Counter.submit. cbn [format_tags].
  rewrite !counter_submit_loop_bound. cbn [snd].
  unfold c, Counter.increment. cbn [Counter.data Counter.prefix].
  rewrite lookup_empty, insert_empty, map_to_list_singleton.
  rewrite !map_to_list_insert, map_to_list_singleton by done.
  cbn. apply Permutation_skip.
  match goal with
  | |- ?a :: ?b :: ?c :: ?tl ≡ₚ _ =>
      exact (Permutation_app_tail tl (Permutation_rev [a; b; c]))
  end.
Qed.

Lemma tracked_request_emissions_witness :
  let view := {| view_module := "app.views"; view_func_name := Some "index";
                 view_class_name := "function" |} in
  let request := {| method := "GET"; is_ajax := true |} in
  let tags := ["method:get_ajax"; "view_name:app.views.index"; "type:view"] in
  let out := tracked_request lower_ascii tracking_settings 10 10.5 11 11.5 12 13 14 15
               view request 200%nat empty_world in
  out.1 = Ret 200%nat
  ∧ (∃ sent,
       sink out.2 = sent
       ∧ sent ≡ₚ
           [StatsdTiming "view.total" 5 tags 1;
            StatsdTiming "view.process_request" 0.5 tags 1;
            StatsdTiming "view.process_view" 0.5 tags 1;
            StatsdTiming "view.process_response" 1 tags 1;
            StatsdIncrement "view.hit" 1 tags 1;
            StatsdIncrement "view.hit" 1 ["type:site"] 1])
  ∧ scope_timings out.2 = None
  ∧ scope_counter out.2 = None
  ∧ view_name out.2 = None.
Proof.
  exact (tracked_request_emissions lower_ascii tracking_settings 10 10.5 11 11.5 12 13 14 15
           {| view_module := "app.views"; view_func_name := Some "index";
              view_class_name := "function" |}
           {| method := "GET"; is_ajax := true |} 200%nat empty_world
           eq_refl).
Defined.

(** X16.  The same request with tracking off, the default: [sample_rate]
    is unbound, so [process_response] raises [NameError] inside [end];
    nothing reaches the sink, and [cleanup] is not reached: the timer and
    the counter of the request stay bound on the thread. *)
Theorem untracked_request_raises {R} (lower : string → string)
    (cfg : Settings) (t0 t1 t2 t3 t4 t5 t6 t7 : float)
    (view : ViewFunc) (request : Request) (response : R) (w : World) :
  TRACK_MIDDLEWARE cfg = false →
  let out := tracked_request lower cfg t0 t1 t2 t3 t4 t5 t6 t7
               view request response w in
  out.1 = Raise (NameError "sample_rate")
  ∧ sink out.2 = sink w
  ∧ scope_timings out.2 = Some (length (timers w))
  ∧ is_Some (scope_counter out.2).
Proof.
  intros Htrack. cbn zeta.
  assert (Hrate : sample_rate cfg = None)
    by (unfold sample_rate; by rewrite Htrack).
  unfold tracked_request.
  rewrite (bind_ret _ _ _ _ _ (process_request_untracked cfg t0 t1 w Htrack)).
  unfold StatsdMiddlewareTimer.process_request,
    StatsdMiddlewareTimer.process_view, StatsdMiddleware.process_view,
    StatsdMiddlewareTimer.process_response, StatsdMiddleware.process_response.
  rewrite Htrack.
  run_binds. rewrite bind_gets. world_simpl. fold (view_name_of view).
  rewrite decide_False by apply view_name_of_nonempty.
  unfold StatsdMiddleware.response_tags. rewrite bind_run.
  match goal with |- context [StatsdMiddleware.stop _ _ ?tg ?w1] =>
    set (w1' := w1);
    destruct (proj2 (middleware_stop_steps cfg t7 tg w1')
                (length (timers w)) _ _ _ eq_refl
                (list_lookup_middle _ _ _ _ eq_refl) eq_refl eq_refl)
      as (Hres & Hsink & _ & Ht & Hc & _)
  end.
  rewrite timer_start_stop, Hrate, timer_submit_unbound in Hres, Hsink.
  cbn [fst snd Timer.data Timer.new] in Hres, Hsink.
  rewrite lookup_empty, insert_empty, map_to_list_singleton in Hres, Hsink.
  cbn [fst snd is_raise] in Hres, Hsink. rewrite app_nil_r in Hsink.
  rewrite Hres. cbn [fst snd]. rewrite Hsink, Ht, Hc. eauto.
Qed.

Lemma untracked_request_raises_witness :
  let out := tracked_request lower_ascii default_settings 10 10.5 11 11.5 12 13 14 15
               {| view_module := "app.views"; view_func_name := None;
                  view_class_name := "IndexView" |}
               {| method := "POST"; is_ajax := false |} 200%nat empty_world in
  out.1 = Raise (NameError "sample_rate")
  ∧ sink out.2 = sink empty_world
  ∧ scope_timings out.2 = Some (length (timers empty_world))
  ∧ is_Some (scope_counter out.2).
Proof.
  exact (untracked_request_raises lower_ascii default_settings 10 10.5 11 11.5 12 13 14 15
           {| view_module := "app.views"; view_func_name := None;
              view_class_name := "IndexView" |}
           {| method := "POST"; is_ajax := false |} 200%nat empty_world
           eq_refl).
Defined.

(** X17.  A request answered before a view is resolved never reports:
    whatever the settings, [process_response] finds no view name, skips
    [end] and runs [cleanup]; the response is passed on, nothing reaches
    the sink, and the hit counted by [process_request] is dropped. *)
Theorem unresolved_request_sends_nothing {R} (lower : string → string)
    (cfg : Settings) (t0 t1 t5 t6 t7 : float)
    (request : Request) (response : R) (w : World) :
  let out := unresolved_request lower cfg t0 t1 t5 t6 t7 request response w in
  out.1 = Ret response
  ∧ sink out.2 = sink w
  ∧ scope_timings out.2 = None
  ∧ scope_counter out.2 = None.
Proof.
  cbn zeta. unfold unresolved_request.
  destruct (TRACK_MIDDLEWARE cfg) eqn:Htrack.
  - rewrite (bind_ret _ _ _ _ _ (process_request_tracked cfg t0 t1 w Htrack)).
    unfold StatsdMiddlewareTimer.process_response,
      StatsdMiddleware.process_response.
    rewrite Htrack.
    rewrite bind_run, bind_run, tracked_start_scoped.
    cbn [mret M_ret fst snd].
    erewrite bind_ret; [|apply tracked_stop_hook].
    + by rewrite bind_gets.
    + by rewrite timer_start_stop.
  - rewrite (bind_ret _ _ _ _ _ (process_request_untracked cfg t0 t1 w Htrack)).
    unfold StatsdMiddlewareTimer.process_response,
      StatsdMiddleware.process_response.
    by rewrite Htrack.
Qed.

(** ** The counter flush under the default settings, and the span helper *)

(** C4, on the code.  The module binds [sample_rate] only when
    [STATSD_TRACK_MIDDLEWARE] is set.  With it unbound, as with the
    default settings, the flush of a counter never reaches
    [statsd.increment]: for every sequence of [increment] and [decrement]
    calls on a new counter and every key whose deltas sum to a non-zero
    value, the flush raises [NameError] and sends nothing, neither under
    that key nor under any other. *)
Theorem counter_flush_unbound_sample_rate
    (cfg : Settings) (prefix : string) (ops : list CounterOp)
    (key : string) (items : list (string * string)) :
  sample_rate cfg = None →
  delta_sum key ops ≠ 0 →
  let c := counter_run ops (Counter.new cfg prefix) in
  Counter.submit (sample_rate cfg) (TagsDict items) c =
    (Raise (NameError "sample_rate"), [])
  ∧ emitted_as (Counter.prefix c +:+ "." +:+ key)
               (Counter.submit (sample_rate cfg) (TagsDict items) c).2 = [].
Proof.
  intros Hr Hsum. cbn zeta. rewrite Hr.
  assert (Hrun : Counter.submit None (TagsDict items)
                   (counter_run ops (Counter.new cfg prefix)) =
                 (Raise (NameError "sample_rate"), [])).
  { unfold Counter.submit. cbn [format_tags].
    rewrite counter_submit_loop_unbound. rewrite decide_False; [done|].
    intros Hall. apply Hsum.
    pose proof (counter_run_value key ops (Counter.new cfg prefix)) as Hv.
    cbn [Counter.new Counter.data] in Hv. rewrite lookup_empty in Hv.
    cbn [default from_option id] in Hv. rewrite Z.add_0_l in Hv.
    destruct (Counter.data (counter_run ops (Counter.new cfg prefix)) !! key)
      as [v|] eqn:Hk; cbn in Hv; [|done].
    rewrite Forall_forall in Hall.
    specialize (Hall (key, v)). cbn in Hall. rewrite <- Hv. apply Hall.
    by apply elem_of_map_to_list. }
  by rewrite Hrun.
Qed.

Lemma counter_flush_unbound_sample_rate_witness :
  let c := counter_run [Incr "hit" 1] (Counter.new default_settings "view") in
  Counter.submit (sample_rate default_settings)
                 (TagsDict [("method", "get")]) c =
    (Raise (NameError "sample_rate"), [])
  ∧ emitted_as (Counter.prefix c +:+ "." +:+ "hit")
               (Counter.submit (sample_rate default_settings)
                               (TagsDict [("method", "get")]) c).2 = [].
Proof.
  apply (counter_flush_unbound_sample_rate default_settings "view"
           [Incr "hit" 1] "hit" [("method", "get")]).
  - reflexivity.
  - discriminate.
Defined.

(** C8.  The span helper [with_(key)].  With no timer bound it yields a
    [DummyWith]: acquisition and release return normally and change
    nothing, and the block is its body.  With a timer bound, acquisition
    is [Timer.start(key)] on that timer: the body starts in the same world
    but for the reading appended to the deque of [key].  Release is
    [Timer.stop(key)] on that same timer, as the body left it, and it runs
    on every exit path: whether the body returned or raised, the timer
    afterwards is the one [Timer.stop] leaves, the sink is as the body
    left it, and the outcome is the body's (its exception included) unless
    [Timer.stop] itself raises.  When the body leaves the span it was
    given as the latest open span of [key], the span is closed, the deque
    of [key] is what it was before the block, and the total of [key] has
    grown by the duration. *)
Theorem with_span_opens_and_closes {A} (key : string) (t_in t_out : float)
    (body : M A) (w : World) :
  match scope_timings w with
  | None =>
      with_ key w = (Ret DummyWith, w)
      ∧ (∀ now w', cm_enter DummyWith now w' = (Ret tt, w')
                   ∧ cm_exit DummyWith now w' = (Ret tt, w'))
      ∧ py_with (with_ key) t_in t_out body w = body w
  | Some a =>
      ∀ tm, timers w !! a = Some tm →
        let w1 := set_timers (<[a := Timer.start t_in key tm]> (timers w)) w in
        let out := py_with (with_ key) t_in t_out body w in
        (cm ← with_ key; cm_enter cm t_in) w = (Ret tt, w1)
        ∧ default [] (Timer.starts (Timer.start t_in key tm) !! key) =
            default [] (Timer.starts tm !! key) ++ [t_in]
        ∧ Timer.data (Timer.start t_in key tm) = Timer.data tm
        ∧ ∀ tm2, timers (body w1).2 !! a = Some tm2 →
            timers out.2 !! a = Some (Timer.stop t_out key tm2).2
            ∧ sink out.2 = sink (body w1).2
            ∧ out.1 =
                match (Timer.stop t_out key tm2).1 with
                | Ret _ => (body w1).1
                | Raise e => Raise e
                end
            ∧ (default [] (Timer.starts tm2 !! key) =
                 default [] (Timer.starts tm !! key) ++ [t_in] →
               out.1 = (body w1).1
               ∧ default [] (Timer.starts (Timer.stop t_out key tm2).2 !! key) =
                   default [] (Timer.starts tm !! key)
               ∧ Timer.data (Timer.stop t_out key tm2).2 !! key =
                   Some (default 0 (Timer.data tm2 !! key)
                         + (t_out - t_in))%float)
  end.
Proof.
  pose proof (with_span_unfold key t_in t_out body w) as H.
  destruct (scope_timings w) as [a|] eqn:Ht; [|done].
  destruct H as (Hwith & Henter & _ & Hblock).
  intros tm Ha. cbn zeta.
  assert (Hstart : timer_start a t_in key w =
            (Ret tt,
             set_timers (<[a := Timer.start t_in key tm]> (timers w)) w)).
  { unfold timer_start. rewrite (on_timer_lookup a tm) by done.
    cbn [fst snd]. rewrite app_nil_r. by destruct w. }
  split.
  { unfold mbind, M_bind. by rewrite Hwith, Henter, Hstart. }
  split; [apply timer_start_deque|]. split; [done|].
  intros tm2 Htm2. rewrite Hblock, Hstart.
  set (w1 := set_timers _ w) in *.
  unfold timer_stop. rewrite (on_timer_lookup a tm2) by done.
  assert (Hlt : (a < length (timers (body w1).2))%nat)
    by (by eapply lookup_lt_Some).
  destruct (Timer.stop t_out key tm2) as [[d|e] tm3] eqn:Hstop;
    cbn [fst snd]; rewrite app_nil_r.
  - cbn. rewrite list_lookup_insert_eq by done.
    split; [done|]. split; [done|]. split; [done|]. intros Hq.
    destruct (timer_stop_snoc t_out t_in _ key tm2 Hq)
      as (tm3' & Hstop' & _ & Hq3 & Hd3 & _).
    rewrite Hstop in Hstop'. injection Hstop' as _ <-.
    by rewrite Hq3, Hd3, lookup_insert_eq.
  - cbn. rewrite list_lookup_insert_eq by done.
    split; [done|]. split; [done|]. split; [done|]. intros Hq.
    destruct (timer_stop_snoc t_out t_in _ key tm2 Hq) as (tm3' & Hstop' & _).
    by rewrite Hstop in Hstop'.
Qed.

(** A block on the scope of a request whose body raises at once: the
    reading 11 is appended to the deque of "db" on entry, the exception
    reaches the caller, and on the way out the span is closed and one
    second is added to the total of "db". *)
Lemma with_span_opens_and_closes_witness :
  let body : M unit := raise (Exception "boom") in
  let tm := Timer.start 10 "total" (Timer.new tracking_settings "view") in
  let w1 := set_timers [Timer.start 11 "db" tm] begun_world in
  let out := py_with (with_ "db") 11 12 body begun_world in
  (cm ← with_ "db"; cm_enter cm 11) begun_world = (Ret tt, w1)
  ∧ default [] (Timer.starts (Timer.start 11 "db" tm) !! "db") = [11%float]
  ∧ out.1 = Raise (Exception "boom")
  ∧ sink out.2 = []
  ∧ (Timer.starts <$> timers out.2 !! 0%nat) = Some {["total" := [10%float]]}
  ∧ (Timer.data <$> timers out.2 !! 0%nat) = Some {["db" := 1%float]}.
Proof.
  cbn zeta.
  pose proof (with_span_opens_and_closes "db" 11 12
                (raise (Exception "boom") : M unit) begun_world) as H.
  change (scope_timings begun_world) with (Some 0%nat) in H.
  specialize (H (Timer.start 10 "total" (Timer.new tracking_settings "view"))
                eq_refl).
  cbn zeta in H. destruct H as (Henter & Hq & _ & Hexit).
  split; [exact Henter|]. split; [exact Hq|].
  destruct (Hexit (Timer.start 11 "db"
              (Timer.start 10 "total" (Timer.new tracking_settings "view")))
              eq_refl) as (Htm & Hsink & Hres & _).
  split; [rewrite Hres; reflexivity|]. split; [rewrite Hsink; reflexivity|].
  rewrite Htm. split; by vm_compute.
Defined.
